(** * SPI controller driver (src/firmware/spi_driver.c, spi_driver.h)

    A shallow embedding of the memory-mapped SPI driver.  The driver's three
    file-scope variables ([current_mode], [current_cs], [initialized]) and the
    peripheral behind [SPI_BASE_ADDR] are threaded explicitly through every
    operation.  The peripheral is an interface ([Device]): every volatile
    access is a call into it, and is also recorded on a bus trace so that
    "performs no write to ..." is a statement about that trace.  Busy-wait
    loops take a poll budget ([fuel]); exhausting it is the outcome [Spins]. *)

From Stdlib Require Import ZArith List Bool Lia.
From stdpp Require Import base list.

Local Open Scope Z_scope.

(** ** Fixed-width integers *)

Definition wrap32 (x : Z) : Z := x mod 2 ^ 32.
Definition wrap8 (x : Z) : Z := x mod 2 ^ 8.

(** ** spi_driver.h *)

(** Register offsets. *)
Definition SPI_CONTROL : Z := 0x00.
Definition SPI_STATUS : Z := 0x04.
Definition SPI_TX_DATA : Z := 0x08.
Definition SPI_RX_DATA : Z := 0x0C.
Definition SPI_CLK_DIV : Z := 0x10.
Definition SPI_TX_FIFO : Z := 0x14.
Definition SPI_RX_FIFO : Z := 0x18.
Definition SPI_IRQ_EN : Z := 0x1C.
Definition SPI_VERSION : Z := 0x20.

(** Control register bits. *)
Definition CTRL_START : Z := Z.shiftl 1 0.
Definition CTRL_MODE0 : Z := Z.shiftl 1 1.
Definition CTRL_MODE1 : Z := Z.shiftl 2 1.
Definition CTRL_CS0 : Z := Z.shiftl 1 3.
Definition CTRL_CS1 : Z := Z.shiftl 1 4.
Definition CTRL_IRQ_EN : Z := Z.shiftl 1 5.
Definition CTRL_DMA_EN : Z := Z.shiftl 1 6.
Definition CTRL_LOOPBACK : Z := Z.shiftl 1 7.
Definition CTRL_CS_POL : Z := Z.shiftl 1 8.

(** Status register bits. *)
Definition STAT_BUSY : Z := Z.shiftl 1 0.
Definition STAT_DONE : Z := Z.shiftl 1 1.
Definition STAT_TX_FULL : Z := Z.shiftl 1 2.
Definition STAT_TX_EMPTY : Z := Z.shiftl 1 3.
Definition STAT_RX_FULL : Z := Z.shiftl 1 4.
Definition STAT_RX_EMPTY : Z := Z.shiftl 1 5.
Definition STAT_ERROR : Z := Z.shiftl 1 6.
Definition STAT_IRQ_PEND : Z := Z.shiftl 1 7.

(** [spi_mode_t] and [spi_cs_t] are C enums: the driver's [switch]
    statements have [default] branches for values outside the enumerators,
    so both are kept as the underlying integer. *)
Definition spi_mode_t : Type := Z.
Definition SPI_MODE_0 : spi_mode_t := 0.
Definition SPI_MODE_1 : spi_mode_t := 1.
Definition SPI_MODE_2 : spi_mode_t := 2.
Definition SPI_MODE_3 : spi_mode_t := 3.

Definition spi_cs_t : Type := Z.
Definition SPI_CS_0 : spi_cs_t := 0.
Definition SPI_CS_1 : spi_cs_t := 1.
Definition SPI_CS_2 : spi_cs_t := 2.
Definition SPI_CS_3 : spi_cs_t := 3.

Inductive spi_error_t : Type :=
| SPI_OK
| SPI_ERROR_BUSY
| SPI_ERROR_TIMEOUT
| SPI_ERROR_FIFO_FULL
| SPI_ERROR_FIFO_EMPTY
| SPI_ERROR_INVALID_MODE.

Definition is_ok (e : spi_error_t) : bool :=
  match e with SPI_OK => true | _ => false end.

(** ** The register block as seen from software *)

(** One volatile access, as it appears on the bus.  Loads carry the value
    that came back. *)
Inductive access : Type :=
| Load32 (off v : Z)
| Store32 (off v : Z)
| Load8 (off v : Z)
| Store8 (off v : Z).

(** The peripheral: what a load returns and how each access moves the
    hardware on.  Loads may change the hardware state (time passes, status
    bits may clear on read). *)
Class Device (D : Type) : Type := {
  dev_load32 : Z -> D -> Z * D;
  dev_store32 : Z -> Z -> D -> D;
  dev_load8 : Z -> D -> Z * D;
  dev_store8 : Z -> Z -> D -> D
}.

(** Driver variables, hardware state and bus trace (newest access first). *)
Record state (D : Type) : Type := mkState {
  current_mode : spi_mode_t;
  current_cs : spi_cs_t;
  initialized : bool;
  hw : D;
  bus : list access
}.
Arguments mkState {D}.
Arguments current_mode {D}.
Arguments current_cs {D}.
Arguments initialized {D}.
Arguments hw {D}.
Arguments bus {D}.

(** Result of running driver code: it returns, it is still polling when the
    poll budget ends, or it indexes a buffer outside its bounds (undefined
    behaviour in C). *)
Inductive outcome (A : Type) : Type :=
| Returns (a : A)
| Spins
| OutOfBounds.
Arguments Returns {A}.
Arguments Spins {A}.
Arguments OutOfBounds {A}.

Definition M (D A : Type) : Type := state D -> outcome (A * state D).

Definition ret {D A : Type} (a : A) : M D A := fun s => Returns (a, s).

Definition bind {D A B : Type} (c : M D A) (k : A -> M D B) : M D B :=
  fun s =>
    match c s with
    | Returns (a, s') => k a s'
    | Spins => Spins
    | OutOfBounds => OutOfBounds
    end.

Declare Scope spi_scope.
Delimit Scope spi_scope with spi.
Notation "'do' x <- c ; k" := (bind c (fun x => k))
  (at level 10, x pattern, c at level 100, k at level 200) : spi_scope.
Notation "c ;; k" := (bind c (fun _ => k))
  (at level 100, k at level 200, right associativity) : spi_scope.

Section Driver.
Context {D : Type} `{Device D}.
Local Open Scope spi_scope.

(** The state after one bus access that leaves the hardware in [d]. *)
Definition access_done (s : state D) (d : D) (a : access) : state D :=
  mkState (current_mode s) (current_cs s) (initialized s) d (a :: bus s).

(** What a 32-bit (8-bit) load at [off] returns in state [s], and the
    hardware state it leaves. *)
Definition peek32 (off : Z) (s : state D) : Z :=
  wrap32 (fst (dev_load32 off (hw s))).
Definition after_load32 (off : Z) (s : state D) : D :=
  snd (dev_load32 off (hw s)).
Definition peek8 (off : Z) (s : state D) : Z :=
  wrap8 (fst (dev_load8 off (hw s))).
Definition after_load8 (off : Z) (s : state D) : D :=
  snd (dev_load8 off (hw s)).

(** [SPI_REG(offset)] and [SPI_REG8(offset)], as rvalue and as lvalue. *)
Definition SPI_REG_get (off : Z) : M D Z := fun s =>
  Returns (peek32 off s,
           access_done s (after_load32 off s) (Load32 off (peek32 off s))).

Definition SPI_REG_set (off v : Z) : M D unit := fun s =>
  Returns (tt,
           access_done s (dev_store32 off (wrap32 v) (hw s))
                       (Store32 off (wrap32 v))).

Definition SPI_REG8_get (off : Z) : M D Z := fun s =>
  Returns (peek8 off s,
           access_done s (after_load8 off s) (Load8 off (peek8 off s))).

Definition SPI_REG8_set (off v : Z) : M D unit := fun s =>
  Returns (tt,
           access_done s (dev_store8 off (wrap8 v) (hw s))
                       (Store8 off (wrap8 v))).

Definition get_initialized : M D bool := fun s => Returns (initialized s, s).
Definition get_current_cs : M D spi_cs_t := fun s => Returns (current_cs s, s).
Definition set_current_mode (m : spi_mode_t) : M D unit := fun s =>
  Returns (tt, mkState m (current_cs s) (initialized s) (hw s) (bus s)).
Definition set_current_cs (c : spi_cs_t) : M D unit := fun s =>
  Returns (tt, mkState (current_mode s) c (initialized s) (hw s) (bus s)).
Definition set_initialized (b : bool) : M D unit := fun s =>
  Returns (tt, mkState (current_mode s) (current_cs s) b (hw s) (bus s)).

Definition spins {A : Type} : M D A := fun _ => Spins.
Definition out_of_bounds {A : Type} : M D A := fun _ => OutOfBounds.

(** [x & ~mask] on [uint32_t]. *)
Definition clear_bits (x mask : Z) : Z := Z.land x (wrap32 (Z.lnot mask)).

(** *** Status predicates *)

Definition spi_is_busy : M D bool :=
  do st <- SPI_REG_get SPI_STATUS;
  ret (negb (Z.land st STAT_BUSY =? 0)).

Definition spi_has_error : M D bool :=
  do st <- SPI_REG_get SPI_STATUS;
  ret (negb (Z.land st STAT_ERROR =? 0)).

(** *** Lifecycle *)

Definition spi_init (mode : spi_mode_t) (clk_div : Z) : M D unit :=
  let '(control, mode) :=
    match mode with
    | 0 => (0, mode)
    | 1 => (CTRL_MODE0, mode)
    | 2 => (CTRL_MODE1, mode)
    | 3 => (Z.lor CTRL_MODE0 CTRL_MODE1, mode)
    | _ => (0, SPI_MODE_0)
    end in
  do cs <- get_current_cs;
  let control :=
    Z.lor control
          (if cs =? SPI_CS_0 then CTRL_CS0
           else if cs =? SPI_CS_1 then CTRL_CS1 else 0) in
  SPI_REG_set SPI_CONTROL control;;
  SPI_REG_set SPI_CLK_DIV clk_div;;
  SPI_REG_set SPI_STATUS 0;;
  set_current_mode mode;;
  set_initialized true.

(** *** Configuration *)

Definition spi_set_mode (mode : spi_mode_t) : M D spi_error_t :=
  do init <- get_initialized;
  if negb init then ret SPI_ERROR_INVALID_MODE else
  do control <- SPI_REG_get SPI_CONTROL;
  let control := clear_bits control (Z.lor CTRL_MODE0 CTRL_MODE1) in
  let set (control : Z) : M D spi_error_t :=
    SPI_REG_set SPI_CONTROL control;;
    set_current_mode mode;;
    ret SPI_OK in
  match mode with
  | 0 => set control
  | 1 => set (Z.lor control CTRL_MODE0)
  | 2 => set (Z.lor control CTRL_MODE1)
  | 3 => set (Z.lor control (Z.lor CTRL_MODE0 CTRL_MODE1))
  | _ => ret SPI_ERROR_INVALID_MODE
  end.

Definition spi_set_clock_divider (divider : Z) : M D spi_error_t :=
  do init <- get_initialized;
  if negb init then ret SPI_ERROR_INVALID_MODE else
  let divider := if divider <? 2 then 2 else divider in
  SPI_REG_set SPI_CLK_DIV divider;;
  ret SPI_OK.

Definition spi_set_cs_polarity (active_high : bool) : M D spi_error_t :=
  do init <- get_initialized;
  if negb init then ret SPI_ERROR_INVALID_MODE else
  do control <- SPI_REG_get SPI_CONTROL;
  let control :=
    if active_high then Z.lor control CTRL_CS_POL
    else clear_bits control CTRL_CS_POL in
  SPI_REG_set SPI_CONTROL control;;
  ret SPI_OK.

Definition spi_enable_loopback (enable : bool) : M D spi_error_t :=
  do init <- get_initialized;
  if negb init then ret SPI_ERROR_INVALID_MODE else
  do control <- SPI_REG_get SPI_CONTROL;
  let control :=
    if enable then Z.lor control CTRL_LOOPBACK
    else clear_bits control CTRL_LOOPBACK in
  SPI_REG_set SPI_CONTROL control;;
  ret SPI_OK.

Definition spi_select_device (cs_line : spi_cs_t) : M D spi_error_t :=
  do init <- get_initialized;
  if negb init then ret SPI_ERROR_INVALID_MODE else
  do control <- SPI_REG_get SPI_CONTROL;
  let control := clear_bits control (Z.lor CTRL_CS0 CTRL_CS1) in
  let set (control : Z) : M D spi_error_t :=
    SPI_REG_set SPI_CONTROL control;;
    set_current_cs cs_line;;
    ret SPI_OK in
  match cs_line with
  | 0 => set (Z.lor control CTRL_CS0)
  | 1 => set (Z.lor control CTRL_CS1)
  | 2 => set (Z.lor control CTRL_CS0)
  | 3 => set (Z.lor control CTRL_CS1)
  | _ => ret SPI_ERROR_INVALID_MODE
  end.

Definition spi_deselect_device (cs_line : spi_cs_t) : M D spi_error_t :=
  do init <- get_initialized;
  if negb init then ret SPI_ERROR_INVALID_MODE else
  do control <- SPI_REG_get SPI_CONTROL;
  let control :=
    match cs_line with
    | 0 => clear_bits control CTRL_CS0
    | 1 => clear_bits control CTRL_CS1
    | _ => clear_bits control (Z.lor CTRL_CS0 CTRL_CS1)
    end in
  SPI_REG_set SPI_CONTROL control;;
  ret SPI_OK.

(** *** Transfer engine *)

(** [while (spi_is_busy()) { }] with a budget of [fuel] status polls. *)
Fixpoint wait_while_busy (fuel : nat) : M D unit :=
  match fuel with
  | O => spins
  | S fuel' =>
      do busy <- spi_is_busy;
      if busy then wait_while_busy fuel' else ret tt
  end.

(** [rx_data] says whether the caller passed a non-NULL destination; the
    second component of the result is the byte stored through it, if the
    store was reached. *)
Definition spi_transfer (fuel : nat) (tx_data : Z) (rx_data : bool)
  : M D (spi_error_t * option Z) :=
  do init <- get_initialized;
  if negb init then ret (SPI_ERROR_INVALID_MODE, None) else
  do busy <- spi_is_busy;
  if busy then ret (SPI_ERROR_BUSY, None) else
  SPI_REG8_set SPI_TX_DATA tx_data;;
  do control <- SPI_REG_get SPI_CONTROL;
  let control := Z.lor control CTRL_START in
  SPI_REG_set SPI_CONTROL control;;
  if rx_data then
    wait_while_busy fuel;;
    do err <- spi_has_error;
    if err then ret (SPI_ERROR_TIMEOUT, None) else
    do v <- SPI_REG8_get SPI_RX_DATA;
    ret (SPI_OK, Some v)
  else ret (SPI_OK, None).

(** The polling loop of [spi_transfer_blocking]: the [timeout_ms > 0]
    branch of the source has an empty body. *)
Fixpoint blocking_wait (fuel : nat) (timeout_ms : Z) : M D unit :=
  match fuel with
  | O => spins
  | S fuel' =>
      do busy <- spi_is_busy;
      if busy then
        (if 0 <? timeout_ms then ret tt else ret tt);;
        blocking_wait fuel' timeout_ms
      else ret tt
  end.

Definition spi_transfer_blocking (fuel : nat) (tx_data : Z) (rx_data : bool)
           (timeout_ms : Z) : M D (spi_error_t * option Z) :=
  do init <- get_initialized;
  if negb init then ret (SPI_ERROR_INVALID_MODE, None) else
  do r <- spi_transfer fuel tx_data false;
  let error := fst r in
  if negb (is_ok error) then ret (error, None) else
  blocking_wait fuel timeout_ms;;
  do err <- spi_has_error;
  if err then ret (SPI_ERROR_TIMEOUT, None) else
  if rx_data then
    do v <- SPI_REG8_get SPI_RX_DATA;
    ret (SPI_OK, Some v)
  else ret (SPI_OK, None).

(** Buffers are lists of bytes; an index outside the list is an access
    outside the C array. *)
Definition load_byte (buffer : list Z) (i : nat) : M D Z :=
  match buffer !! i with
  | Some b => ret b
  | None => out_of_bounds
  end.

Definition store_byte (buffer : list Z) (i : nat) (v : Z) : M D (list Z) :=
  if (i <? length buffer)%nat then ret (<[i:=v]> buffer) else out_of_bounds.

(** The [for] loops run [i] upwards; [n] is [length - i]. *)
Fixpoint write_bytes_loop (fuel : nat) (data : list Z) (i n : nat)
  : M D spi_error_t :=
  match n with
  | O => ret SPI_OK
  | S n' =>
      do b <- load_byte data i;
      do r <- spi_transfer fuel b false;
      let error := fst r in
      if negb (is_ok error) then ret error
      else write_bytes_loop fuel data (S i) n'
  end.

Definition spi_write_bytes (fuel : nat) (data : option (list Z)) (length : nat)
  : M D spi_error_t :=
  do init <- get_initialized;
  if negb init then ret SPI_ERROR_INVALID_MODE else
  match data with
  | None => ret SPI_OK
  | Some data => write_bytes_loop fuel data 0 length
  end.

Fixpoint read_bytes_loop (fuel : nat) (buffer : list Z) (i n : nat)
  : M D (spi_error_t * list Z) :=
  match n with
  | O => ret (SPI_OK, buffer)
  | S n' =>
      do r <- spi_transfer fuel 0xFF true;
      let '(error, out) := r in
      do buffer <- match out with
                   | Some v => store_byte buffer i v
                   | None => ret buffer
                   end;
      if negb (is_ok error) then ret (error, buffer)
      else read_bytes_loop fuel buffer (S i) n'
  end.

Definition spi_read_bytes (fuel : nat) (buffer : option (list Z)) (length : nat)
  : M D (spi_error_t * option (list Z)) :=
  do init <- get_initialized;
  if negb init then ret (SPI_ERROR_INVALID_MODE, buffer) else
  match buffer with
  | None => ret (SPI_OK, None)
  | Some buffer =>
      do r <- read_bytes_loop fuel buffer 0 length;
      ret (fst r, Some (snd r))
  end.

(** [rx_byte] is a local of the loop body: it holds whatever
    [spi_transfer] stored, and is read only after [SPI_OK]. *)
Fixpoint transfer_bytes_loop (fuel : nat) (tx_data rx_data : option (list Z))
         (i n : nat) : M D (spi_error_t * option (list Z)) :=
  match n with
  | O => ret (SPI_OK, rx_data)
  | S n' =>
      do tx_byte <- match tx_data with
                    | Some tx => load_byte tx i
                    | None => ret 0xFF
                    end;
      do r <- spi_transfer fuel tx_byte true;
      let '(error, rx_byte) := r in
      if negb (is_ok error) then ret (error, rx_data) else
      do rx_data <- match rx_data, rx_byte with
                    | Some rx, Some v =>
                        do rx <- store_byte rx i v; ret (Some rx)
                    | _, _ => ret rx_data
                    end;
      transfer_bytes_loop fuel tx_data rx_data (S i) n'
  end.

Definition spi_transfer_bytes (fuel : nat) (tx_data rx_data : option (list Z))
           (length : nat) : M D (spi_error_t * option (list Z)) :=
  do init <- get_initialized;
  if negb init then ret (SPI_ERROR_INVALID_MODE, rx_data) else
  match tx_data, rx_data with
  | None, None => ret (SPI_OK, None)
  | _, _ => transfer_bytes_loop fuel tx_data rx_data 0 length
  end.

(** *** Flash identification *)

(** [response] is the content of the uninitialised local array
    [uint8_t response[3]] on entry; [manufacturer_id] and [device_id] say
    whether the two out-pointers are non-NULL, and the result carries the
    bytes stored through them. *)
Definition spi_flash_read_id (fuel : nat) (response : list Z)
           (manufacturer_id device_id : bool)
  : M D (spi_error_t * option Z * option Z) :=
  do init <- get_initialized;
  if negb init then ret (SPI_ERROR_INVALID_MODE, None, None) else
  let cmd := 0x9F in
  spi_select_device SPI_CS_0;;
  spi_transfer fuel cmd false;;
  do r <- spi_read_bytes fuel (Some response) 3;
  let response := match snd r with Some b => b | None => response end in
  spi_deselect_device SPI_CS_0;;
  do m <- (if manufacturer_id
           then do b <- load_byte response 0; ret (Some b)
           else ret None);
  do d <- (if device_id
           then do b <- load_byte response 1; ret (Some b)
           else ret None);
  ret (SPI_OK, m, d).

(** *** FIFO, remaining status predicates, interrupts, shutdown *)

Definition spi_is_tx_fifo_full : M D bool :=
  do st <- SPI_REG_get SPI_STATUS;
  ret (negb (Z.land st STAT_TX_FULL =? 0)).

Definition spi_is_tx_fifo_empty : M D bool :=
  do st <- SPI_REG_get SPI_STATUS;
  ret (negb (Z.land st STAT_TX_EMPTY =? 0)).

Definition spi_is_rx_fifo_full : M D bool :=
  do st <- SPI_REG_get SPI_STATUS;
  ret (negb (Z.land st STAT_RX_FULL =? 0)).

Definition spi_is_rx_fifo_empty : M D bool :=
  do st <- SPI_REG_get SPI_STATUS;
  ret (negb (Z.land st STAT_RX_EMPTY =? 0)).

Definition spi_is_done : M D bool :=
  do st <- SPI_REG_get SPI_STATUS;
  ret (negb (Z.land st STAT_DONE =? 0)).

Definition spi_is_interrupt_pending : M D bool :=
  do st <- SPI_REG_get SPI_STATUS;
  ret (negb (Z.land st STAT_IRQ_PEND =? 0)).

Definition spi_get_version : M D Z := SPI_REG_get SPI_VERSION.

Definition spi_fifo_write (data : Z) : M D spi_error_t :=
  do init <- get_initialized;
  if negb init then ret SPI_ERROR_INVALID_MODE else
  do full <- spi_is_tx_fifo_full;
  if full then ret SPI_ERROR_FIFO_FULL else
  SPI_REG8_set SPI_TX_FIFO data;;
  ret SPI_OK.

(** [data] says whether the destination pointer is non-NULL.  The source
    stores through it unchecked: a NULL destination is undefined behaviour,
    reported like an access outside a buffer, after the load of RxFifo. *)
Definition spi_fifo_read (data : bool) : M D (spi_error_t * option Z) :=
  do init <- get_initialized;
  if negb init then ret (SPI_ERROR_INVALID_MODE, None) else
  do empty <- spi_is_rx_fifo_empty;
  if empty then ret (SPI_ERROR_FIFO_EMPTY, None) else
  do v <- SPI_REG8_get SPI_RX_FIFO;
  if data then ret (SPI_OK, Some v) else out_of_bounds.

(** [while (!spi_is_rx_fifo_empty()) { uint8_t dummy; spi_fifo_read(&dummy); }]
    with a budget of [fuel] iterations. *)
Fixpoint drain_rx_fifo (fuel : nat) : M D unit :=
  match fuel with
  | O => spins
  | S fuel' =>
      do empty <- spi_is_rx_fifo_empty;
      if negb empty then
        spi_fifo_read true;;
        drain_rx_fifo fuel'
      else ret tt
  end.

Definition spi_deinit (fuel : nat) : M D spi_error_t :=
  do init <- get_initialized;
  if negb init then ret SPI_OK else
  SPI_REG_set SPI_CONTROL 0;;
  drain_rx_fifo fuel;;
  set_initialized false;;
  ret SPI_OK.

Definition spi_enable_interrupt (enable : bool) : M D spi_error_t :=
  do init <- get_initialized;
  if negb init then ret SPI_ERROR_INVALID_MODE else
  do control <- SPI_REG_get SPI_CONTROL;
  let control :=
    if enable then Z.lor control CTRL_IRQ_EN
    else clear_bits control CTRL_IRQ_EN in
  SPI_REG_set SPI_CONTROL control;;
  ret SPI_OK.

Definition spi_clear_interrupt : M D spi_error_t :=
  do init <- get_initialized;
  if negb init then ret SPI_ERROR_INVALID_MODE else
  SPI_REG_get SPI_STATUS;;
  ret SPI_OK.

End Driver.

(** Clock polarity and phase of a mode, as the enumerators of
    [spi_mode_t] document them. *)
Definition CPOL (m : spi_mode_t) : bool :=
  match m with 2 | 3 => true | _ => false end.
Definition CPHA (m : spi_mode_t) : bool :=
  match m with 1 | 3 => true | _ => false end.

(** The accesses made between state [s] and a later state [s'], newest
    first. *)
Definition issued {D : Type} (s s' : state D) : list access :=
  take (length (bus s') - length (bus s))%nat (bus s').

(** [s'] is reached from [s] by exactly one read-modify-write of the
    Control register that writes back [c']. *)
Definition rmw_control {D : Type} `{Device D} (s s' : state D) (c' : Z) : Prop :=
  issued s s' =
    [Store32 SPI_CONTROL c'; Load32 SPI_CONTROL (peek32 SPI_CONTROL s)] /\
  hw s' = dev_store32 SPI_CONTROL c' (after_load32 SPI_CONTROL s).

(** ** Peripherals to run the driver against *)

(** Modelled from the spec: the SPI controller hardware behind the register
    block, which is not part of the firmware sources.  Control, Status,
    TxData, RxData and ClockDivider are registers at their offsets; writing
    Control with the Start bit set begins a shift if none is in flight, and
    the Start bit clears itself; Busy reads as set while a shift is in
    flight; in loopback mode the transmit output is routed to the receive
    input, otherwise the receive input is whatever the attached slave drives
    ([sim_miso]).  A shift stays in flight for [sim_latency] polls of
    Status; the model never raises the Error flag by itself. *)
Record sim : Type := mkSim {
  sim_control : Z;
  sim_status : Z;
  sim_tx : Z;
  sim_rx : Z;
  sim_clk_div : Z;
  sim_busy : nat;
  sim_latency : nat;
  sim_miso : Z
}.

Definition sim_status_value (d : sim) : Z :=
  Z.lor (clear_bits (sim_status d) STAT_BUSY)
        (match sim_busy d with O => 0 | S _ => STAT_BUSY end).

Definition sim_tick (d : sim) : sim :=
  mkSim (sim_control d) (sim_status d) (sim_tx d) (sim_rx d) (sim_clk_div d)
        (Nat.pred (sim_busy d)) (sim_latency d) (sim_miso d).

Definition sim_start (d : sim) : sim :=
  match sim_busy d with
  | S _ => d
  | O =>
      mkSim (sim_control d) (sim_status d) (sim_tx d)
            (if Z.testbit (sim_control d) 7 then sim_tx d else sim_miso d)
            (sim_clk_div d) (sim_latency d) (sim_latency d) (sim_miso d)
  end.

Definition sim_load32 (off : Z) (d : sim) : Z * sim :=
  if off =? SPI_CONTROL then (sim_control d, d)
  else if off =? SPI_STATUS then (sim_status_value d, sim_tick d)
  else if off =? SPI_CLK_DIV then (sim_clk_div d, d)
  else if off =? SPI_VERSION then (0x00010000, d)
  else (0, d).

Definition sim_store32 (off v : Z) (d : sim) : sim :=
  if off =? SPI_CONTROL then
    let d' := mkSim (clear_bits v CTRL_START) (sim_status d) (sim_tx d)
                    (sim_rx d) (sim_clk_div d) (sim_busy d) (sim_latency d)
                    (sim_miso d) in
    if Z.testbit v 0 then sim_start d' else d'
  else if off =? SPI_STATUS then
    mkSim (sim_control d) v (sim_tx d) (sim_rx d) (sim_clk_div d)
          (sim_busy d) (sim_latency d) (sim_miso d)
  else if off =? SPI_CLK_DIV then
    mkSim (sim_control d) (sim_status d) (sim_tx d) (sim_rx d) v
          (sim_busy d) (sim_latency d) (sim_miso d)
  else d.

Definition sim_load8 (off : Z) (d : sim) : Z * sim :=
  if off =? SPI_RX_DATA then (sim_rx d, d) else (0, d).

Definition sim_store8 (off v : Z) (d : sim) : sim :=
  if off =? SPI_TX_DATA then
    mkSim (sim_control d) (sim_status d) v (sim_rx d) (sim_clk_div d)
          (sim_busy d) (sim_latency d) (sim_miso d)
  else d.

#[export] Instance sim_device : Device sim := {
  dev_load32 := sim_load32;
  dev_store32 := sim_store32;
  dev_load8 := sim_load8;
  dev_store8 := sim_store8
}.

(** The simulated controller is at rest with loopback enabled: the driver
    is initialized, no shift is in flight, the Error flag is clear and the
    Loopback bit of Control is set. *)
Definition loopback_ready (s : state sim) : Prop :=
  initialized s = true /\
  sim_busy (hw s) = O /\
  Z.testbit (sim_status (hw s)) 6 = false /\
  Z.testbit (sim_control (hw s)) 7 = true.

(** A controller whose shift never completes once started (no clock reaches
    the shift register): the state records whether Start was written, and
    Status reads Busy from then on. *)
Definition hung : Type := bool.

#[export] Instance hung_device : Device hung := {
  dev_load32 off d :=
    (if (off =? SPI_STATUS) && d then STAT_BUSY else 0, d);
  dev_store32 off v d :=
    if (off =? SPI_CONTROL) && Z.testbit v 0 then true else d;
  dev_load8 off d := (0, d);
  dev_store8 off v d := d
}.

(** Power-on states used in the examples. *)
Definition sim_reset (latency : nat) (miso : Z) : sim :=
  mkSim 0 0 0 0 0 O latency miso.

Definition boot {D : Type} (d : D) : state D :=
  mkState SPI_MODE_0 SPI_CS_0 false d [].

(** Driver states on the simulated controller used in the worked
    instances: not yet initialized; initialized and at rest; initialized
    with loopback enabled; initialized with a shift still in flight;
    initialized with CS2 as the recorded chip select. *)
Definition sim_off : state sim := boot (sim_reset 1 0x5A).

Definition sim_on : state sim :=
  mkState SPI_MODE_0 SPI_CS_0 true (sim_reset 1 0x5A) [].

Definition sim_looped : state sim :=
  mkState SPI_MODE_0 SPI_CS_0 true (mkSim CTRL_LOOPBACK 0 0 0 4 O 1 0x5A) [].

Definition sim_in_flight : state sim :=
  mkState SPI_MODE_0 SPI_CS_0 true (mkSim 0 0 0xAA 0 4 1 1 0x5A) [].

Definition sim_on_cs2 : state sim :=
  mkState SPI_MODE_0 SPI_CS_2 true (sim_reset 1 0x5A) [].

(** Further driver states on the simulated controller: the Error flag
    latched; the TxFull flag latched; the RxEmpty flag latched; a
    controller whose shifts complete at once. *)
Definition sim_faulted : state sim :=
  mkState SPI_MODE_0 SPI_CS_0 true (mkSim 0 STAT_ERROR 0 0 4 O 1 0x5A) [].

Definition sim_tx_full : state sim :=
  mkState SPI_MODE_0 SPI_CS_0 true (mkSim 0 STAT_TX_FULL 0 0 4 O 1 0x5A) [].

Definition sim_rx_empty : state sim :=
  mkState SPI_MODE_0 SPI_CS_0 true (mkSim 0 STAT_RX_EMPTY 0 0 4 O 1 0x5A) [].

Definition sim_instant : state sim :=
  mkState SPI_MODE_0 SPI_CS_1 true (sim_reset 0 0x5A) [].

(** The hung controller under an initialized driver, before any Start. *)
Definition hung_on : state hung :=
  mkState SPI_MODE_0 SPI_CS_0 true false [].

(** The state in which [spi_transfer] has found Busy clear, written
    [tx_data] to TxData and set Start in Control. *)
Definition started {D : Type} `{Device D} (s : state D) (tx_data : Z) : state D :=
  let s1 := access_done s (after_load32 SPI_STATUS s)
                        (Load32 SPI_STATUS (peek32 SPI_STATUS s)) in
  let s2 := access_done s1 (dev_store8 SPI_TX_DATA (wrap8 tx_data) (hw s1))
                        (Store8 SPI_TX_DATA (wrap8 tx_data)) in
  let control := peek32 SPI_CONTROL s2 in
  let s3 := access_done s2 (after_load32 SPI_CONTROL s2)
                        (Load32 SPI_CONTROL control) in
  access_done s3
              (dev_store32 SPI_CONTROL (wrap32 (Z.lor control CTRL_START)) (hw s3))
              (Store32 SPI_CONTROL (wrap32 (Z.lor control CTRL_START))).

(** The loopback round trip without any condition on the Status flags:
    initialized driver, Loopback bit set in Control, at most 32 bytes, a
    receive buffer of the same length, and a poll budget above the shift
    latency -- nothing about Busy or Error. *)
Definition loopback_round_trip_unconditional : Prop :=
  forall (fuel : nat) (tx rx : list Z) (s : state sim),
    initialized s = true ->
    Z.testbit (sim_control (hw s)) 7 = true ->
    (length tx <= 32)%nat ->
    length rx = length tx ->
    Forall (fun b => 0 <= b < 256) tx ->
    (sim_latency (hw s) < fuel)%nat ->
    exists s',
      spi_transfer_bytes fuel (Some tx) (Some rx) (length tx) s =
        Returns ((SPI_OK, Some tx), s').

(** The simulated controller with no shift in flight. *)
Definition sim_idle (d : sim) : sim :=
  mkSim (sim_control d) (sim_status d) (sim_tx d) (sim_rx d) (sim_clk_div d)
        O (sim_latency d) (sim_miso d).

(** Between [s] and [s'] the bus trace only grew, and every access added
    satisfies [P]. *)
Definition only {D : Type} (P : access -> Prop) (s s' : state D) : Prop :=
  exists l, bus s' = l ++ bus s /\ Forall P l.

(** Whenever [c] returns, it has made only accesses satisfying [P] and has
    left the three driver variables as they were. *)
Definition keeps {D A : Type} (P : access -> Prop) (c : M D A) : Prop :=
  forall s a s',
    c s = Returns (a, s') ->
    only P s s' /\
    current_mode s' = current_mode s /\ current_cs s' = current_cs s /\
    initialized s' = initialized s.

(** The accesses a single-byte transfer may make: loads of Status and
    Control, a store to TxData of a byte satisfying [Q], a store to Control
    with the Start bit set, a load of RxData. *)
Definition transfer_access (Q : Z -> Prop) (a : access) : Prop :=
  match a with
  | Load32 off _ => off = SPI_STATUS \/ off = SPI_CONTROL
  | Store32 off v => off = SPI_CONTROL /\ Z.testbit v 0 = true
  | Load8 off _ => off = SPI_RX_DATA
  | Store8 off v => off = SPI_TX_DATA /\ Q v
  end.

(** The accesses the receive-FIFO drain may make: loads of Status and of
    RxFifo. *)
Definition drain_access (a : access) : Prop :=
  match a with
  | Load32 off _ => off = SPI_STATUS
  | Load8 off _ => off = SPI_RX_FIFO
  | Store32 _ _ | Store8 _ _ => False
  end.

(** ** Theorems *)

Ltac run :=
  cbv beta iota delta
    [bind ret get_initialized get_current_cs set_current_mode set_current_cs
     set_initialized SPI_REG_get SPI_REG_set SPI_REG8_get SPI_REG8_set
     spi_is_busy spi_has_error spins out_of_bounds negb fst snd is_ok].

Lemma wrap32_small (x : Z) : 0 <= x < 2 ^ 32 -> wrap32 x = x.
Proof. intros Hx. unfold wrap32. now apply Z.mod_small. Qed.

Lemma testbit_wrap32 (x i : Z) :
  Z.testbit (wrap32 x) i = (i <? 32) && Z.testbit x i.
Proof.
  unfold wrap32. destruct (Z.ltb_spec i 32) as [Hlt | Hge]; cbn [andb].
  - destruct (Z.neg_nonneg_cases i) as [Hneg | Hpos].
    + now rewrite !Z.testbit_neg_r.
    + apply Z.mod_pow2_bits_low. lia.
  - apply Z.mod_pow2_bits_high. lia.
Qed.

Lemma testbit_clear_bits (x mask i : Z) :
  0 <= i ->
  Z.testbit (clear_bits x mask) i =
    Z.testbit x i && ((i <? 32) && negb (Z.testbit mask i)).
Proof.
  intros Hi. unfold clear_bits.
  now rewrite Z.land_spec, testbit_wrap32, Z.lnot_spec.
Qed.

(** Push [Z.testbit] through the wrap, or and and-not of a
    read-modify-write. *)
Ltac bits :=
  repeat first
    [ rewrite testbit_wrap32
    | rewrite Z.lor_spec
    | rewrite testbit_clear_bits by lia ].

Lemma bind_unfold {D A B : Type} (c : M D A) (k : A -> M D B) (s : state D) :
  bind c k s =
    match c s with
    | Returns (a, s') => k a s'
    | Spins => Spins
    | OutOfBounds => OutOfBounds
    end.
Proof. reflexivity. Qed.

Lemma bind_returns {D A B : Type} (c : M D A) (k : A -> M D B)
      (s s' : state D) (a : A) :
  c s = Returns (a, s') -> bind c k s = k a s'.
Proof. intros Hc. now rewrite bind_unfold, Hc. Qed.

Lemma bind_get_initialized {D B : Type} (k : bool -> M D B) (s : state D) :
  bind get_initialized k s = k (initialized s) s.
Proof. reflexivity. Qed.

Section DriverFacts.
Context {D : Type} `{Device D}.

(** C8: on an initialized controller, [spi_set_clock_divider d] returns
    [SPI_OK]; the one bus access it makes is a store to the ClockDivider
    register, of 2 when [d < 2] and of [d] itself when [d >= 2]
    ([d] is a [uint8_t]). *)
Theorem spi_set_clock_divider_clamps (s : state D) (d : Z) :
  initialized s = true ->
  0 <= d < 256 ->
  exists stored,
    spi_set_clock_divider d s =
      Returns (SPI_OK,
               access_done s (dev_store32 SPI_CLK_DIV stored (hw s))
                           (Store32 SPI_CLK_DIV stored)) /\
    (d < 2 -> stored = 2) /\ (d >= 2 -> stored = d).
Proof.
  intros Hi Hd. exists (if d <? 2 then 2 else d).
  split; [|split].
  - unfold spi_set_clock_divider. run. rewrite Hi.
    rewrite wrap32_small; [reflexivity|]. destruct (d <? 2); lia.
  - intros Hlt. apply Z.ltb_lt in Hlt. now rewrite Hlt.
  - intros Hge. destruct (Z.ltb_spec d 2); [lia | reflexivity].
Qed.

Lemma issued_app (s s' : state D) (l : list access) :
  bus s' = l ++ bus s -> issued s s' = l.
Proof.
  intros Hb. unfold issued. rewrite Hb, length_app.
  replace (length l + length (bus s) - length (bus s))%nat with (length l) by lia.
  now rewrite take_app_length.
Qed.

Lemma spi_transfer_busy
      (fuel : nat) (s : state D) (tx_data : Z) (rx_data : bool) :
  initialized s = true ->
  Z.land (peek32 SPI_STATUS s) STAT_BUSY <> 0 ->
  spi_transfer fuel tx_data rx_data s =
    Returns ((SPI_ERROR_BUSY, None),
             access_done s (after_load32 SPI_STATUS s)
                         (Load32 SPI_STATUS (peek32 SPI_STATUS s))).
Proof.
  intros Hi Hbusy. unfold spi_transfer. run. rewrite Hi.
  apply Z.eqb_neq in Hbusy. now rewrite Hbusy.
Qed.

(** C2: whenever the controller is initialized and the Busy bit of the
    Status register reads as set, [spi_transfer] returns
    [SPI_ERROR_BUSY]; the only bus access it has made is that one load of
    Status, so nothing was stored to TxData and nothing (in particular no
    Start bit) was stored to Control. *)
Theorem spi_transfer_busy_no_write
        (fuel : nat) (s : state D) (tx_data : Z) (rx_data : bool) :
  initialized s = true ->
  Z.land (peek32 SPI_STATUS s) STAT_BUSY <> 0 ->
  exists s',
    spi_transfer fuel tx_data rx_data s = Returns ((SPI_ERROR_BUSY, None), s') /\
    issued s s' = [Load32 SPI_STATUS (peek32 SPI_STATUS s)] /\
    (forall v, ~ In (Store8 SPI_TX_DATA v) (issued s s')) /\
    (forall v, ~ In (Store32 SPI_CONTROL v) (issued s s')).
Proof.
  intros Hi Hbusy.
  exists (access_done s (after_load32 SPI_STATUS s)
                      (Load32 SPI_STATUS (peek32 SPI_STATUS s))).
  assert (Hiss : issued s (access_done s (after_load32 SPI_STATUS s)
                                       (Load32 SPI_STATUS (peek32 SPI_STATUS s)))
                 = [Load32 SPI_STATUS (peek32 SPI_STATUS s)])
    by now apply issued_app.
  split; [|split; [exact Hiss|]].
  - now apply spi_transfer_busy.
  - rewrite Hiss. split; intros v [Hin | []]; discriminate Hin.
Qed.

(** C3: while [initialized] is false, each configuration operation and
    each transfer operation returns [SPI_ERROR_INVALID_MODE] and hands
    back the state it was given: no bus access is made, so the hardware
    state (every register) and the driver variables are as before, and
    caller buffers are not written. *)
Theorem uninitialized_rejected (s : state D) :
  initialized s = false ->
  (forall mode, spi_set_mode mode s = Returns (SPI_ERROR_INVALID_MODE, s)) /\
  (forall divider,
      spi_set_clock_divider divider s = Returns (SPI_ERROR_INVALID_MODE, s)) /\
  (forall active_high,
      spi_set_cs_polarity active_high s = Returns (SPI_ERROR_INVALID_MODE, s)) /\
  (forall enable,
      spi_enable_loopback enable s = Returns (SPI_ERROR_INVALID_MODE, s)) /\
  (forall cs_line,
      spi_select_device cs_line s = Returns (SPI_ERROR_INVALID_MODE, s)) /\
  (forall cs_line,
      spi_deselect_device cs_line s = Returns (SPI_ERROR_INVALID_MODE, s)) /\
  (forall fuel tx_data rx_data,
      spi_transfer fuel tx_data rx_data s =
        Returns ((SPI_ERROR_INVALID_MODE, None), s)) /\
  (forall fuel tx_data rx_data timeout_ms,
      spi_transfer_blocking fuel tx_data rx_data timeout_ms s =
        Returns ((SPI_ERROR_INVALID_MODE, None), s)) /\
  (forall fuel data length,
      spi_write_bytes fuel data length s = Returns (SPI_ERROR_INVALID_MODE, s)) /\
  (forall fuel buffer length,
      spi_read_bytes fuel buffer length s =
        Returns ((SPI_ERROR_INVALID_MODE, buffer), s)) /\
  (forall fuel tx_data rx_data length,
      spi_transfer_bytes fuel tx_data rx_data length s =
        Returns ((SPI_ERROR_INVALID_MODE, rx_data), s)).
Proof.
  intros Hi.
  repeat split; intros;
    unfold spi_set_mode, spi_set_clock_divider, spi_set_cs_polarity,
      spi_enable_loopback, spi_select_device, spi_deselect_device,
      spi_transfer, spi_transfer_blocking, spi_write_bytes, spi_read_bytes,
      spi_transfer_bytes;
    run; now rewrite Hi.
Qed.

Lemma rmw_control_intro (s : state D) (c' : Z) (m : spi_mode_t) (cs : spi_cs_t) :
  rmw_control s
    (mkState m cs (initialized s)
             (dev_store32 SPI_CONTROL c' (after_load32 SPI_CONTROL s))
             (Store32 SPI_CONTROL c'
                :: Load32 SPI_CONTROL (peek32 SPI_CONTROL s) :: bus s))
    c'.
Proof.
  split; [|reflexivity].
  now apply (issued_app s _ [Store32 SPI_CONTROL c'; Load32 SPI_CONTROL _]).
Qed.

(** C5: on an initialized controller, selecting CS2 writes Control back
    with the CS0 bit (bit 3) set and selecting CS3 writes it back with the
    CS1 bit (bit 4) set, the other select bit being clear in both cases;
    deselecting any line other than CS0 and CS1 writes Control back with
    both select bits clear. *)
Theorem chip_select_aliasing (s : state D) :
  initialized s = true ->
  (exists s' c',
      spi_select_device SPI_CS_2 s = Returns (SPI_OK, s') /\
      rmw_control s s' c' /\ current_cs s' = SPI_CS_2 /\
      Z.testbit c' 3 = true /\ Z.testbit c' 4 = false) /\
  (exists s' c',
      spi_select_device SPI_CS_3 s = Returns (SPI_OK, s') /\
      rmw_control s s' c' /\ current_cs s' = SPI_CS_3 /\
      Z.testbit c' 3 = false /\ Z.testbit c' 4 = true) /\
  (forall cs_line,
      cs_line <> SPI_CS_0 -> cs_line <> SPI_CS_1 ->
      exists s' c',
        spi_deselect_device cs_line s = Returns (SPI_OK, s') /\
        rmw_control s s' c' /\
        Z.testbit c' 3 = false /\ Z.testbit c' 4 = false).
Proof.
  intros Hi. split; [|split].
  - eexists; eexists. split; [|split; [|split]].
    + unfold spi_select_device. run. rewrite Hi. cbn [SPI_CS_2]. reflexivity.
    + unfold access_done. cbn [current_mode current_cs initialized hw bus].
      apply rmw_control_intro.
    + reflexivity.
    + split; bits; [now rewrite orb_true_r|].
      change (Z.testbit (Z.lor CTRL_CS0 CTRL_CS1) 4) with true.
      now rewrite !andb_false_r.
  - eexists; eexists. split; [|split; [|split]].
    + unfold spi_select_device. run. rewrite Hi. cbn [SPI_CS_3]. reflexivity.
    + unfold access_done. cbn [current_mode current_cs initialized hw bus].
      apply rmw_control_intro.
    + reflexivity.
    + split; bits; [|now rewrite orb_true_r].
      change (Z.testbit (Z.lor CTRL_CS0 CTRL_CS1) 3) with true.
      now rewrite !andb_false_r.
  - intros cs_line H0 H1.
    assert (Hm : forall c : Z,
               match cs_line with
               | 0 => clear_bits c CTRL_CS0
               | 1 => clear_bits c CTRL_CS1
               | _ => clear_bits c (Z.lor CTRL_CS0 CTRL_CS1)
               end = clear_bits c (Z.lor CTRL_CS0 CTRL_CS1)).
    { intros c. destruct cs_line as [|[p|p|]|p]; try reflexivity.
      - now contradiction H0.
      - now contradiction H1. }
    eexists; eexists. split; [|split].
    + unfold spi_deselect_device. run. rewrite Hi, Hm. reflexivity.
    + unfold access_done. cbn [current_mode current_cs initialized hw bus].
      apply rmw_control_intro.
    + split; bits.
      * change (Z.testbit (Z.lor CTRL_CS0 CTRL_CS1) 3) with true.
        now rewrite !andb_false_r.
      * change (Z.testbit (Z.lor CTRL_CS0 CTRL_CS1) 4) with true.
        now rewrite !andb_false_r.
Qed.

Lemma mode_mask_bit_low (k i : Z) :
  0 <= k < 8 -> 0 <= i -> i <> 1 -> i <> 2 -> Z.even k = true ->
  Z.testbit k i = false.
Proof.
  intros Hk Hi H1 H2 Hev.
  destruct (Z.eq_dec i 0) as [-> | H0].
  - rewrite Z.bit0_odd, <- Z.negb_even, Hev. reflexivity.
  - destruct (Z.eq_dec k 0) as [-> | Hk0]; [apply Z.bits_0|].
    apply Z.bits_above_log2; [lia|].
    assert (Z.log2 k < 3) by (apply Z.log2_lt_pow2; lia). lia.
Qed.

(** C6: for each of the four supported modes, [spi_set_mode] on an
    initialized controller returns [SPI_OK] after one read-modify-write of
    Control whose written value has bit 2 equal to the mode's clock
    polarity and bit 1 equal to its clock phase -- (0,0), (0,1), (1,0),
    (1,1) for modes 0..3 -- and every other bit as it was read.  The map
    from the four modes to the (polarity, phase) pair is injective and
    onto the four bit pairs. *)
Theorem spi_set_mode_bits (s : state D) (mode : spi_mode_t) :
  initialized s = true ->
  SPI_MODE_0 <= mode <= SPI_MODE_3 ->
  (exists s' c',
      spi_set_mode mode s = Returns (SPI_OK, s') /\
      rmw_control s s' c' /\ current_mode s' = mode /\
      Z.testbit c' 2 = CPOL mode /\ Z.testbit c' 1 = CPHA mode /\
      (forall i, 0 <= i -> i <> 1 -> i <> 2 ->
                 Z.testbit c' i = Z.testbit (peek32 SPI_CONTROL s) i)) /\
  (CPOL SPI_MODE_0, CPHA SPI_MODE_0) = (false, false) /\
  (CPOL SPI_MODE_1, CPHA SPI_MODE_1) = (false, true) /\
  (CPOL SPI_MODE_2, CPHA SPI_MODE_2) = (true, false) /\
  (CPOL SPI_MODE_3, CPHA SPI_MODE_3) = (true, true) /\
  (forall m', SPI_MODE_0 <= m' <= SPI_MODE_3 ->
              CPOL m' = CPOL mode -> CPHA m' = CPHA mode -> m' = mode) /\
  (forall pol pha : bool,
      exists m', SPI_MODE_0 <= m' <= SPI_MODE_3 /\ CPOL m' = pol /\ CPHA m' = pha).
Proof.
  unfold SPI_MODE_0, SPI_MODE_1, SPI_MODE_2, SPI_MODE_3.
  intros Hi Hm.
  assert (Hcases : mode = 0 \/ mode = 1 \/ mode = 2 \/ mode = 3) by lia.
  split; [|repeat split].
  - assert (Hother : forall k i, 0 <= k < 8 -> Z.even k = true ->
              0 <= i -> i <> 1 -> i <> 2 ->
              Z.testbit
                (wrap32 (Z.lor (clear_bits (peek32 SPI_CONTROL s)
                                           (Z.lor CTRL_MODE0 CTRL_MODE1)) k)) i
              = Z.testbit (peek32 SPI_CONTROL s) i).
    { intros k i Hk Hev H0 H1 H2. bits.
      rewrite (mode_mask_bit_low k i), (mode_mask_bit_low CTRL_MODE0 i),
        (mode_mask_bit_low CTRL_MODE1 i); try easy.
      unfold peek32. rewrite testbit_wrap32.
      destruct (i <? 32); cbn [andb negb orb]; [|reflexivity].
      now rewrite !andb_true_r, orb_false_r. }
    assert (Hother0 : forall i, 0 <= i -> i <> 1 -> i <> 2 ->
              Z.testbit
                (wrap32 (clear_bits (peek32 SPI_CONTROL s)
                                    (Z.lor CTRL_MODE0 CTRL_MODE1))) i
              = Z.testbit (peek32 SPI_CONTROL s) i).
    { intros i H0 H1 H2. rewrite <- (Hother 0 i) by easy.
      now rewrite Z.lor_0_r. }
    destruct Hcases as [-> | [-> | [-> | ->]]];
      (eexists; eexists; split; [|split; [|split; [|split; [|split]]]];
       [ unfold spi_set_mode; run; rewrite Hi; reflexivity
       | unfold access_done; cbn [current_mode current_cs initialized hw bus];
         apply rmw_control_intro
       | reflexivity
       | bits;
         change (Z.testbit (Z.lor CTRL_MODE0 CTRL_MODE1) 2) with true;
         cbn [CPOL]; rewrite ?andb_false_r, ?orb_true_r; reflexivity
       | bits;
         change (Z.testbit (Z.lor CTRL_MODE0 CTRL_MODE1) 1) with true;
         cbn [CPHA]; rewrite ?andb_false_r, ?orb_true_r; reflexivity
       | first [ exact Hother0 | intros i; now apply Hother ] ]).
  - intros m' Hm'.
    assert (Hc' : m' = 0 \/ m' = 1 \/ m' = 2 \/ m' = 3) by lia.
    destruct Hc' as [-> | [-> | [-> | ->]]];
      destruct Hcases as [-> | [-> | [-> | ->]]];
      cbn [CPOL CPHA]; intros; congruence.
  - intros [] [];
      [exists 3 | exists 2 | exists 1 | exists 0]; cbn [CPOL CPHA];
      (split; [lia | split; reflexivity]).
Qed.

(** C10: when [current_cs] is CS2 or CS3, the value [spi_init] stores to
    Control has neither the CS0 bit (bit 3) nor the CS1 bit (bit 4) set,
    whatever mode and clock divider it is called with: the aliasing of
    CS2 to CS0 and of CS3 to CS1 is done by [spi_select_device] only. *)
Theorem spi_init_no_cs_alias (s : state D) (mode : spi_mode_t) (clk_div : Z) :
  current_cs s = SPI_CS_2 \/ current_cs s = SPI_CS_3 ->
  exists s' control,
    spi_init mode clk_div s = Returns (tt, s') /\
    issued s s' = [Store32 SPI_STATUS 0;
                   Store32 SPI_CLK_DIV (wrap32 clk_div);
                   Store32 SPI_CONTROL control] /\
    initialized s' = true /\
    Z.testbit control 3 = false /\ Z.testbit control 4 = false.
Proof.
  intros Hcs.
  assert (Hsel : (if current_cs s =? SPI_CS_0 then CTRL_CS0
                  else if current_cs s =? SPI_CS_1 then CTRL_CS1 else 0) = 0)
    by (destruct Hcs as [-> | ->]; reflexivity).
  unfold spi_init.
  destruct mode as [|[[p|p|]|[p|p|]|]|p];
    (eexists; eexists; split; [|split; [|split]];
     [ run; rewrite Hsel; reflexivity
     | unfold access_done; cbn [current_mode current_cs initialized hw bus];
       now apply (issued_app s _ [_; _; _])
     | reflexivity
     | split; reflexivity ]).
Qed.

(** *** The transfer engine *)

(** Without a receive destination [spi_transfer] never polls, so the poll
    budget is immaterial. *)
Lemma spi_transfer_no_rx_fuel (f1 f2 : nat) (tx_data : Z) (s : state D) :
  spi_transfer f1 tx_data false s = spi_transfer f2 tx_data false s.
Proof. reflexivity. Qed.

Lemma blocking_wait_timeout_irrelevant (fuel : nat) (t1 t2 : Z) (s : state D) :
  blocking_wait fuel t1 s = blocking_wait fuel t2 s.
Proof.
  revert s. induction fuel as [|fuel IH]; intros s; [reflexivity|].
  cbn [blocking_wait]. run.
  destruct (Z.land (peek32 SPI_STATUS s) STAT_BUSY =? 0); [reflexivity|].
  destruct (0 <? t1), (0 <? t2); apply IH.
Qed.

Section StuckBusy.
(** A set of hardware states in which Status reads Busy and which no
    Status poll leaves. *)
Variable stuck : D -> Prop.
Hypothesis stuck_busy :
  forall d, stuck d ->
            Z.land (wrap32 (fst (dev_load32 SPI_STATUS d))) STAT_BUSY <> 0 /\
            stuck (snd (dev_load32 SPI_STATUS d)).

Lemma blocking_wait_stuck (fuel : nat) (timeout_ms : Z) (s : state D) :
  stuck (hw s) -> blocking_wait fuel timeout_ms s = Spins.
Proof.
  revert s. induction fuel as [|fuel IH]; intros s Hs; [reflexivity|].
  cbn [blocking_wait]. run.
  destruct (stuck_busy _ Hs) as [Hb Hs'].
  apply Z.eqb_neq in Hb. unfold peek32. rewrite Hb.
  destruct (0 <? timeout_ms); now apply IH.
Qed.
End StuckBusy.

(** C4 (what the code does): [spi_transfer_blocking] never looks at its
    [timeout_ms] argument -- two calls that differ only in the bound have
    the same outcome -- and if, after Start has been issued, the hardware
    keeps reporting Busy at every Status poll, then for every bound
    (positive ones included) and every poll budget the call is still
    polling: it does not abort and does not return
    [SPI_ERROR_TIMEOUT]. *)
Theorem spi_transfer_blocking_never_times_out (stuck : D -> Prop) :
  (forall d, stuck d ->
             Z.land (wrap32 (fst (dev_load32 SPI_STATUS d))) STAT_BUSY <> 0 /\
             stuck (snd (dev_load32 SPI_STATUS d))) ->
  (forall fuel tx_data rx_data t1 t2 (s : state D),
      spi_transfer_blocking fuel tx_data rx_data t1 s =
      spi_transfer_blocking fuel tx_data rx_data t2 s) /\
  (forall fuel0 tx_data (s s1 : state D),
      initialized s = true ->
      spi_transfer fuel0 tx_data false s = Returns ((SPI_OK, None), s1) ->
      stuck (hw s1) ->
      forall fuel rx_data timeout_ms,
        0 < timeout_ms ->
        spi_transfer_blocking fuel tx_data rx_data timeout_ms s = Spins).
Proof.
  intros Hstuck. split.
  - intros fuel tx_data rx_data t1 t2 s.
    unfold spi_transfer_blocking. rewrite !bind_get_initialized.
    destruct (negb (initialized s)); [reflexivity|].
    rewrite !(bind_unfold (spi_transfer fuel tx_data false)).
    destruct (spi_transfer fuel tx_data false s) as [[r s1]| |];
      try reflexivity.
    cbv zeta. destruct (negb (is_ok (fst r))); [reflexivity|].
    rewrite !(bind_unfold (blocking_wait fuel _)).
    now rewrite (blocking_wait_timeout_irrelevant fuel t1 t2 s1).
  - intros fuel0 tx_data s s1 Hi Htr Hs1 fuel rx_data timeout_ms _.
    unfold spi_transfer_blocking. rewrite bind_get_initialized, Hi.
    cbn [negb].
    rewrite (bind_returns _ _ s s1 (SPI_OK, None))
      by now rewrite (spi_transfer_no_rx_fuel fuel fuel0).
    cbn [fst is_ok negb]. rewrite bind_unfold.
    now rewrite (blocking_wait_stuck stuck Hstuck).
Qed.

(** Past its two guards, [spi_transfer] issues the byte and then, with a
    destination, waits for it. *)
Lemma spi_transfer_idle
      (fuel : nat) (tx_data : Z) (rx_data : bool) (s : state D) :
  initialized s = true ->
  Z.land (peek32 SPI_STATUS s) STAT_BUSY = 0 ->
  spi_transfer fuel tx_data rx_data s =
    (if rx_data then
       bind (wait_while_busy fuel) (fun _ =>
       bind spi_has_error (fun err =>
       if err then ret (SPI_ERROR_TIMEOUT, None) else
       bind (SPI_REG8_get SPI_RX_DATA) (fun v => ret (SPI_OK, Some v))))
     else ret (SPI_OK, None)) (started s tx_data).
Proof.
  intros Hi Hb. unfold spi_transfer.
  rewrite bind_get_initialized, Hi. cbn [negb].
  unfold spi_is_busy at 1. rewrite bind_unfold. unfold bind at 1.
  unfold SPI_REG_get at 1. unfold ret at 1.
  rewrite Hb. cbn [Z.eqb negb].
  reflexivity.
Qed.

(** *** Bulk transfers *)







(** *** Flash identification *)








(** The two identifier bytes [spi_flash_read_id] hands out, read from a
    three-byte [response]. *)
Lemma flash_ids_tail (response : list Z) (manufacturer_id device_id : bool)
      (s : state D) :
  length response = 3%nat ->
  exists m d,
    bind (if manufacturer_id
          then bind (load_byte response 0) (fun b => ret (Some b))
          else ret None)
         (fun m =>
            bind (if device_id
                  then bind (load_byte response 1) (fun b => ret (Some b))
                  else ret None)
                 (fun d => ret (SPI_OK, m, d))) s
    = Returns ((SPI_OK, m, d), s) /\
    m = (if manufacturer_id then response !! 0%nat else None) /\
    d = (if device_id then response !! 1%nat else None).
Proof.
  intros Hlen.
  destruct response as [|b0 [|b1 [|b2 [|]]]]; try discriminate.
  destruct manufacturer_id, device_id;
    eexists; eexists; (split; [reflexivity | split; reflexivity]).
Qed.


End DriverFacts.

(** ** The driver on the simulated controller *)

Lemma land_bit_eqb (x n : Z) :
  0 <= n -> (Z.land x (Z.shiftl 1 n) =? 0) = negb (Z.testbit x n).
Proof.
  intros Hn. rewrite Z.shiftl_1_l.
  destruct (Z.testbit x n) eqn:Hb; cbn [negb].
  - apply Z.eqb_neq. intros Hz.
    assert (Ht : Z.testbit (Z.land x (2 ^ n)) n = true)
      by now rewrite Z.land_spec, Hb, Z.pow2_bits_true.
    rewrite Hz, Z.bits_0 in Ht. discriminate.
  - apply Z.eqb_eq. apply Z.bits_inj'. intros i Hi.
    rewrite Z.land_spec, Z.bits_0, Z.pow2_bits_eqb by lia.
    destruct (Z.eqb_spec n i) as [<- | Hne]; [now rewrite Hb|].
    apply andb_false_r.
Qed.

Section SimFacts.

Lemma sim_busy_flag (d : sim) :
  (Z.land (wrap32 (sim_status_value d)) STAT_BUSY =? 0) =
    match sim_busy d with O => true | S _ => false end.
Proof.
  unfold STAT_BUSY. rewrite land_bit_eqb by lia.
  unfold sim_status_value. bits.
  change (Z.testbit STAT_BUSY 0) with true.
  destruct (sim_busy d); cbn; now rewrite ?andb_false_r.
Qed.

Lemma sim_error_flag (d : sim) :
  (Z.land (wrap32 (sim_status_value d)) STAT_ERROR =? 0) =
    negb (Z.testbit (sim_status d) 6).
Proof.
  unfold STAT_ERROR. rewrite land_bit_eqb by lia.
  unfold sim_status_value. bits.
  change (Z.testbit STAT_BUSY 6) with false.
  replace (Z.testbit match sim_busy d with O => 0 | S _ => STAT_BUSY end 6)
    with false by (now destruct (sim_busy d)).
  cbn. now rewrite andb_true_r, orb_false_r.
Qed.

Lemma sim_idle_tick (d : sim) : sim_idle (sim_tick d) = sim_idle d.
Proof. reflexivity. Qed.

Lemma sim_tick_idle (d : sim) : sim_busy d = O -> sim_tick d = d.
Proof. destruct d; cbn. now intros ->. Qed.

(** Polling ends once the shift in flight has had its [sim_busy] polls. *)
Lemma sim_wait_while_busy (fuel : nat) :
  forall s : state sim,
    (sim_busy (hw s) < fuel)%nat ->
    exists s',
      wait_while_busy fuel s = Returns (tt, s') /\
      initialized s' = initialized s /\
      hw s' = sim_idle (hw s).
Proof.
  induction fuel as [|fuel IH]; intros s Hlt; [lia|].
  cbn [wait_while_busy]. run.
  change (peek32 SPI_STATUS s) with (wrap32 (sim_status_value (hw s))).
  rewrite sim_busy_flag.
  destruct (sim_busy (hw s)) as [|k] eqn:Hb.
  - eexists. split; [reflexivity|]. split; [reflexivity|].
    cbn [access_done hw].
    change (after_load32 SPI_STATUS s) with (sim_tick (hw s)).
    rewrite sim_tick_idle by exact Hb.
    destruct (hw s); cbn in *. now subst.
  - destruct (IH (access_done s (after_load32 SPI_STATUS s)
                              (Load32 SPI_STATUS (wrap32 (sim_status_value (hw s))))))
      as (s' & Hw & Hi & Hh).
    + cbn [access_done hw].
      change (after_load32 SPI_STATUS s) with (sim_tick (hw s)).
      unfold sim_tick. cbn [sim_busy]. rewrite Hb. cbn. lia.
    + exists s'. split; [exact Hw|]. split; [exact Hi|].
      rewrite Hh. cbn [access_done hw].
      change (after_load32 SPI_STATUS s) with (sim_tick (hw s)).
      apply sim_idle_tick.
Qed.

Lemma sim_started_hw (s : state sim) (tx_data : Z) :
  sim_busy (hw s) = O ->
  hw (started s tx_data) =
    let control :=
      clear_bits (wrap32 (Z.lor (wrap32 (sim_control (hw s))) CTRL_START))
                 CTRL_START in
    mkSim control (sim_status (hw s)) (wrap8 tx_data)
          (if Z.testbit control 7 then wrap8 tx_data else sim_miso (hw s))
          (sim_clk_div (hw s)) (sim_latency (hw s)) (sim_latency (hw s))
          (sim_miso (hw s)).
Proof.
  intros Hb. destruct s as [m c i d l]. destruct d. cbn in Hb. subst.
  unfold started, access_done, after_load32, peek32.
  cbn -[wrap32 wrap8 Z.testbit Z.lor clear_bits].
  replace (Z.testbit (wrap32 (Z.lor (wrap32 sim_control0) CTRL_START)) 0)
    with true; [reflexivity|].
  bits. change (Z.testbit CTRL_START 0) with true.
  now rewrite orb_true_r.
Qed.

Lemma start_keeps_loopback (control : Z) :
  Z.testbit
    (clear_bits (wrap32 (Z.lor (wrap32 control) CTRL_START)) CTRL_START) 7 =
  Z.testbit control 7.
Proof.
  bits.
  change (Z.testbit CTRL_START 7) with false.
  change (7 <? 32) with true.
  cbn [andb negb]. now rewrite orb_false_r, andb_true_r.
Qed.

(** One byte through the shift register of a controller at rest: the
    byte handed back is the transmitted one in loopback mode and the
    slave's byte otherwise; Control bit 7 and the Error flag are as
    before. *)
Lemma sim_transfer_at_rest (fuel : nat) (b : Z) (s : state sim) :
  initialized s = true ->
  sim_busy (hw s) = O ->
  Z.testbit (sim_status (hw s)) 6 = false ->
  (sim_latency (hw s) < fuel)%nat ->
  exists s',
    spi_transfer fuel b true s =
      Returns ((SPI_OK,
                Some (wrap8 (if Z.testbit (sim_control (hw s)) 7
                             then wrap8 b else sim_miso (hw s)))), s') /\
    initialized s' = true /\
    sim_busy (hw s') = O /\
    Z.testbit (sim_status (hw s')) 6 = false /\
    Z.testbit (sim_control (hw s')) 7 = Z.testbit (sim_control (hw s)) 7 /\
    sim_latency (hw s') = sim_latency (hw s) /\
    sim_miso (hw s') = sim_miso (hw s).
Proof.
  intros Hi Hbusy Herr Hfuel.
  rewrite spi_transfer_idle; [|exact Hi|].
  2:{ apply Z.eqb_eq.
      change (peek32 SPI_STATUS s) with (wrap32 (sim_status_value (hw s))).
      now rewrite sim_busy_flag, Hbusy. }
  pose proof (sim_started_hw s b Hbusy) as Hhw. cbv zeta in Hhw.
  rewrite start_keeps_loopback in Hhw.
  destruct (sim_wait_while_busy fuel (started s b)) as (s5 & Hw & Hi5 & Hh5).
  { rewrite Hhw. cbn [sim_busy]. exact Hfuel. }
  rewrite (bind_returns _ _ _ _ _ Hw).
  rewrite Hhw in Hh5. unfold sim_idle in Hh5.
  cbn [sim_control sim_status sim_tx sim_rx
                             sim_clk_div sim_latency sim_miso] in Hh5.
  unfold spi_has_error. rewrite !bind_unfold.
  unfold SPI_REG_get at 1. unfold ret at 1.
  change (peek32 SPI_STATUS s5) with (wrap32 (sim_status_value (hw s5))).
  rewrite sim_error_flag, Hh5. cbn [sim_status]. rewrite Herr. cbn [negb].
  rewrite bind_unfold. unfold SPI_REG8_get, ret.
  assert (Hh6 : after_load32 SPI_STATUS s5 = hw s5).
  { change (after_load32 SPI_STATUS s5) with (sim_tick (hw s5)).
    apply sim_tick_idle. now rewrite Hh5. }
  eexists. split.
  - f_equal. f_equal. f_equal. f_equal.
    unfold peek8, access_done. cbn [hw].
    rewrite Hh6, Hh5. reflexivity.
  - unfold access_done, after_load8. cbn [initialized hw].
    rewrite Hh6, Hh5. cbn -[wrap32 wrap8 Z.testbit Z.lor clear_bits].
    rewrite start_keeps_loopback.
    repeat split; try reflexivity; try assumption.
    rewrite Hi5. exact Hi.
Qed.

Lemma sim_loopback_transfer (fuel : nat) (b : Z) (s : state sim) :
  loopback_ready s ->
  0 <= b < 256 ->
  (sim_latency (hw s) < fuel)%nat ->
  exists s',
    spi_transfer fuel b true s = Returns ((SPI_OK, Some b), s') /\
    loopback_ready s' /\
    sim_latency (hw s') = sim_latency (hw s).
Proof.
  intros (Hi & Hbusy & Herr & Hloop) Hb Hfuel.
  destruct (sim_transfer_at_rest fuel b s Hi Hbusy Herr Hfuel)
    as (s' & Htr & Hi' & Hbusy' & Herr' & Hloop' & Hlat & _).
  exists s'. split; [|split; [|exact Hlat]].
  - rewrite Htr, Hloop. unfold wrap8. change (2 ^ 8) with 256.
    now rewrite !(Z.mod_small b 256) by lia.
  - repeat split; try assumption. now rewrite Hloop'.
Qed.

(** The loop of [spi_transfer_bytes] in loopback: positions [i .. i+n)
    of the receive buffer end up holding the transmitted bytes. *)
Lemma sim_loopback_loop (fuel : nat) (tx : list Z) :
  Forall (fun b => 0 <= b < 256) tx ->
  forall (n i : nat) (rx : list Z) (s : state sim),
    loopback_ready s ->
    (sim_latency (hw s) < fuel)%nat ->
    (i + n <= length tx)%nat ->
    length rx = length tx ->
    exists s',
      transfer_bytes_loop fuel (Some tx) (Some rx) i n s =
        Returns ((SPI_OK,
                  Some (take i rx ++ take n (drop i tx) ++ drop (i + n) rx)),
                 s') /\
      loopback_ready s'.
Proof.
  intros Hbytes. induction n as [|n IH]; intros i rx s Hready Hfuel Hin Hlen.
  - exists s. split; [|exact Hready].
    cbn [transfer_bytes_loop]. unfold ret.
    now rewrite Nat.add_0_r, take_0, app_nil_l, take_drop.
  - destruct (lookup_lt_is_Some_2 tx i) as [b Hb]; [lia|].
    assert (Hrange : 0 <= b < 256)
      by exact (Forall_lookup_1 _ _ _ _ Hbytes Hb).
    destruct (sim_loopback_transfer fuel b s Hready Hrange Hfuel)
      as (s1 & Htr & Hready1 & Hlat1).
    destruct (IH (S i) (<[i:=b]> rx) s1) as (s' & Hloop & Hready').
    + exact Hready1.
    + now rewrite Hlat1.
    + lia.
    + now rewrite length_insert.
    + exists s'. split; [|exact Hready'].
      cbn [transfer_bytes_loop]. unfold load_byte. rewrite Hb.
      rewrite (bind_returns _ _ s s b) by reflexivity.
      rewrite (bind_returns _ _ _ _ _ Htr). cbn [is_ok negb].
      unfold store_byte.
      destruct (Nat.ltb_spec i (length rx)) as [_ | Hge]; [|lia].
      rewrite (bind_returns _ _ s1 s1 (Some (<[i:=b]> rx))) by reflexivity.
      rewrite Hloop. do 3 f_equal.
      rewrite (take_S_r (<[i:=b]> rx) i b)
        by (apply list_lookup_insert_eq; lia).
      rewrite take_insert_ge by lia.
      rewrite drop_insert_lt by lia.
      rewrite (drop_S tx b i Hb). cbn [take].
      rewrite <- app_assoc. cbn [app].
      now replace (i + S n)%nat with (S i + n)%nat by lia.
Qed.

End SimFacts.

(** C1: on the simulated controller at rest with loopback enabled (driver
    initialized, no shift in flight, Error flag clear, Loopback bit set in
    Control), [spi_transfer_bytes] on any sequence of at most 32 bytes,
    given a poll budget above the shift latency, returns [SPI_OK] and
    leaves the receive buffer equal to the transmitted sequence.  With
    loopback disabled the same call can return [SPI_OK] with a receive
    buffer that differs from the transmitted sequence. *)
Theorem loopback_round_trip :
  (forall (fuel : nat) (tx rx : list Z) (s : state sim),
      loopback_ready s ->
      (length tx <= 32)%nat ->
      length rx = length tx ->
      Forall (fun b => 0 <= b < 256) tx ->
      (sim_latency (hw s) < fuel)%nat ->
      exists s',
        spi_transfer_bytes fuel (Some tx) (Some rx) (length tx) s =
          Returns ((SPI_OK, Some tx), s')) /\
  (exists (fuel : nat) (tx rx rx' : list Z) (s s' : state sim),
      initialized s = true /\ sim_busy (hw s) = O /\
      Z.testbit (sim_status (hw s)) 6 = false /\
      Z.testbit (sim_control (hw s)) 7 = false /\
      (length tx <= 32)%nat /\ length rx = length tx /\
      Forall (fun b => 0 <= b < 256) tx /\
      (sim_latency (hw s) < fuel)%nat /\
      spi_transfer_bytes fuel (Some tx) (Some rx) (length tx) s =
        Returns ((SPI_OK, Some rx'), s') /\
      rx' <> tx).
Proof.
  split.
  - intros fuel tx rx s Hready _ Hlen Hbytes Hfuel.
    destruct (sim_loopback_loop fuel tx Hbytes (length tx) 0 rx s)
      as (s' & Hloop & _); try assumption; [lia|].
    exists s'. unfold spi_transfer_bytes.
    destruct Hready as (Hi & _).
    rewrite bind_get_initialized, Hi. cbn [negb].
    rewrite Hloop. do 3 f_equal.
    rewrite take_0, drop_0, app_nil_l, take_ge, drop_ge by lia.
    now rewrite app_nil_r.
  - exists 2%nat, [0x01; 0x02], [0; 0], [0x5A; 0x5A],
      (mkState SPI_MODE_0 SPI_CS_0 true (sim_reset 1 0x5A) []).
    eexists.
    split; [reflexivity|]. split; [reflexivity|].
    split; [reflexivity|]. split; [reflexivity|].
    split; [cbn [length]; lia|]. split; [reflexivity|].
    split; [repeat constructor; lia|].
    split; [cbn [sim_reset hw sim_latency]; lia|].
    split; [vm_compute; reflexivity | discriminate].
Qed.

(** ** Worked instances *)

(** Loopback round trip of three bytes on the simulated controller. *)
Lemma loopback_round_trip_witness :
  exists s',
    spi_transfer_bytes 2 (Some [0x01; 0x02; 0x03]) (Some [0; 0; 0]) 3 sim_looped =
      Returns ((SPI_OK, Some [0x01; 0x02; 0x03]), s').
Proof.
  apply (proj1 loopback_round_trip 2%nat [0x01; 0x02; 0x03] [0; 0; 0] sim_looped).
  - repeat split; reflexivity.
  - cbn [length]. lia.
  - reflexivity.
  - repeat constructor; lia.
  - cbn. lia.
Defined.

(** C1, as worded, fails.  Starting from power-on, [spi_init], then
    [spi_enable_loopback true], then a one-byte [spi_write_bytes] (which
    does not wait) leave the driver initialized with the Loopback bit set
    and a shift still in flight; [spi_transfer_bytes] of three bytes then
    stops at the Busy guard of [spi_transfer] and returns
    [SPI_ERROR_BUSY] with the receive buffer unwritten.  So the round trip
    does not hold on every initialized controller with loopback
    enabled. *)
Lemma loopback_round_trip_fails_in_flight :
  (exists s s',
      bind (spi_init SPI_MODE_0 4) (fun _ =>
      bind (spi_enable_loopback true) (fun _ =>
      spi_write_bytes 2 (Some [0x9F]) 1)) (boot (sim_reset 1 0x5A)) =
        Returns (SPI_OK, s) /\
      initialized s = true /\
      Z.testbit (sim_control (hw s)) 7 = true /\
      sim_busy (hw s) = 1%nat /\
      spi_transfer_bytes 2 (Some [0x01; 0x02; 0x03]) (Some [0; 0; 0]) 3 s =
        Returns ((SPI_ERROR_BUSY, Some [0; 0; 0]), s')) /\
  ~ loopback_round_trip_unconditional.
Proof.
  assert (Hrun : bind (spi_init SPI_MODE_0 4) (fun _ =>
                 bind (spi_enable_loopback true) (fun _ =>
                 spi_write_bytes 2 (Some [0x9F]) 1))
                   (boot (sim_reset 1 0x5A)) = _)
    by (vm_compute; reflexivity).
  match type of Hrun with
  | _ = Returns (_, ?s0) =>
      assert (Hfail :
                spi_transfer_bytes 2 (Some [0x01; 0x02; 0x03])
                                   (Some [0; 0; 0]) 3 s0 = _)
        by (vm_compute; reflexivity)
  end.
  split.
  - eexists; eexists. split; [exact Hrun|].
    split; [reflexivity|]. split; [reflexivity|]. split; [reflexivity|].
    exact Hfail.
  - intros Hall.
    match type of Hfail with
    | spi_transfer_bytes _ _ _ _ ?s0 = _ =>
        destruct (Hall 2%nat [0x01; 0x02; 0x03] [0; 0; 0] s0)
          as (s' & Hok)
    end.
    + reflexivity.
    + reflexivity.
    + cbn [length]. lia.
    + reflexivity.
    + repeat constructor; lia.
    + cbn. lia.
    + cbn [length] in Hok. rewrite Hfail in Hok. discriminate Hok.
Qed.

(** A transfer requested while a shift is in flight. *)
Lemma spi_transfer_busy_no_write_witness :
  exists s',
    spi_transfer 4 0x55 true sim_in_flight = Returns ((SPI_ERROR_BUSY, None), s') /\
    issued sim_in_flight s' =
      [Load32 SPI_STATUS (peek32 SPI_STATUS sim_in_flight)] /\
    (forall v, ~ In (Store8 SPI_TX_DATA v) (issued sim_in_flight s')) /\
    (forall v, ~ In (Store32 SPI_CONTROL v) (issued sim_in_flight s')).
Proof.
  apply (spi_transfer_busy_no_write 4 sim_in_flight 0x55 true).
  - reflexivity.
  - vm_compute. discriminate.
Defined.

(** Every operation on the controller before [spi_init]. *)
Lemma uninitialized_rejected_witness :
  initialized sim_off = false /\
  spi_set_mode SPI_MODE_1 sim_off = Returns (SPI_ERROR_INVALID_MODE, sim_off) /\
  spi_transfer 4 0x55 true sim_off =
    Returns ((SPI_ERROR_INVALID_MODE, None), sim_off).
Proof.
  pose proof (uninitialized_rejected sim_off eq_refl) as Hall.
  split; [reflexivity|]. split.
  - apply (proj1 Hall).
  - apply (proj1 (proj2 (proj2 (proj2 (proj2 (proj2 (proj2 Hall))))))).
Defined.

(** A bounded transfer of one second on the hung controller. *)
Lemma spi_transfer_blocking_never_times_out_witness :
  spi_transfer_blocking 100 0xAA true 1000 hung_on = Spins.
Proof.
  refine (proj2 (spi_transfer_blocking_never_times_out (D := hung)
                   (fun d => d = true) _)
                0%nat 0xAA hung_on _ eq_refl _ _ 100%nat true 1000 _).
  - intros d ->. split; [vm_compute; discriminate | reflexivity].
  - vm_compute. reflexivity.
  - reflexivity.
  - lia.
Defined.

(** Selecting CS2 on the simulated controller. *)
Lemma chip_select_aliasing_witness :
  exists s' c',
    spi_select_device SPI_CS_2 sim_on = Returns (SPI_OK, s') /\
    rmw_control sim_on s' c' /\ current_cs s' = SPI_CS_2 /\
    Z.testbit c' 3 = true /\ Z.testbit c' 4 = false.
Proof.
  apply (proj1 (chip_select_aliasing sim_on eq_refl)).
Defined.

(** Setting mode 2 on the simulated controller. *)
Lemma spi_set_mode_bits_witness :
  exists s' c',
    spi_set_mode SPI_MODE_2 sim_on = Returns (SPI_OK, s') /\
    rmw_control sim_on s' c' /\ current_mode s' = SPI_MODE_2 /\
    Z.testbit c' 2 = CPOL SPI_MODE_2 /\ Z.testbit c' 1 = CPHA SPI_MODE_2 /\
    (forall i, 0 <= i -> i <> 1 -> i <> 2 ->
               Z.testbit c' i = Z.testbit (peek32 SPI_CONTROL sim_on) i).
Proof.
  refine (proj1 (spi_set_mode_bits sim_on SPI_MODE_2 eq_refl _)).
  vm_compute. split; discriminate.
Defined.


(** A divider of 1 on the simulated controller. *)
Lemma spi_set_clock_divider_clamps_witness :
  exists stored,
    spi_set_clock_divider 1 sim_on =
      Returns (SPI_OK,
               access_done sim_on (dev_store32 SPI_CLK_DIV stored (hw sim_on))
                           (Store32 SPI_CLK_DIV stored)) /\
    (1 < 2 -> stored = 2) /\ (1 >= 2 -> stored = 1).
Proof.
  apply (spi_set_clock_divider_clamps sim_on 1); [reflexivity | lia].
Defined.


(** Re-initializing while CS2 is the recorded chip select. *)
Lemma spi_init_no_cs_alias_witness :
  exists s' control,
    spi_init SPI_MODE_3 4 sim_on_cs2 = Returns (tt, s') /\
    issued sim_on_cs2 s' = [Store32 SPI_STATUS 0;
                            Store32 SPI_CLK_DIV (wrap32 4);
                            Store32 SPI_CONTROL control] /\
    initialized s' = true /\
    Z.testbit control 3 = false /\ Z.testbit control 4 = false.
Proof.
  apply (spi_init_no_cs_alias sim_on_cs2 SPI_MODE_3 4).
  left. reflexivity.
Defined.

(** ** Further properties of the driver *)

Lemma testbit_shiftl1 (k i : Z) :
  0 <= k -> Z.testbit (Z.shiftl 1 k) i = (k =? i).
Proof. intros Hk. rewrite Z.shiftl_1_l. now apply Z.pow2_bits_eqb. Qed.

Lemma flag_is_bit (st k : Z) :
  0 <= k -> negb (Z.land st (Z.shiftl 1 k) =? 0) = Z.testbit st k.
Proof. intros Hk. now rewrite land_bit_eqb, negb_involutive. Qed.

(** Setting or clearing bit [k] of a 32-bit register value. *)
Lemma single_bit_update (v k i : Z) (enable : bool) :
  0 <= k < 32 -> 0 <= i ->
  Z.testbit
    (wrap32 (if enable then Z.lor (wrap32 v) (Z.shiftl 1 k)
             else clear_bits (wrap32 v) (Z.shiftl 1 k))) i =
  if i =? k then enable else Z.testbit (wrap32 v) i.
Proof.
  intros Hk Hi. destruct enable; bits; rewrite !testbit_shiftl1 by lia;
    rewrite (Z.eqb_sym k i);
    destruct (Z.eqb_spec i k) as [Heq | Hne];
    destruct (Z.ltb_spec i 32); try lia;
    cbn [andb orb negb];
    rewrite ?andb_true_r, ?andb_false_r, ?orb_true_r, ?orb_false_r;
    reflexivity.
Qed.

Lemma low_bits_only (c i : Z) :
  0 <= c < 32 -> 5 <= i -> Z.testbit c i = false.
Proof.
  intros Hc Hi. destruct (Z.eq_dec c 0) as [-> | Hnz]; [apply Z.bits_0|].
  apply Z.bits_above_log2; [lia|].
  assert (Z.log2 c < 5) by (apply Z.log2_lt_pow2; lia). lia.
Qed.

Section MoreDriverFacts.
Context {D : Type} `{Device D}.

(** X1: each status predicate makes exactly one 32-bit load of Status,
    stores nothing, and returns one bit of the loaded value: Busy bit 0,
    Done bit 1, TxFull bit 2, TxEmpty bit 3, RxFull bit 4, RxEmpty bit 5,
    Error bit 6, IrqPending bit 7. *)
Theorem status_predicates_read_bits (s : state D) :
  let st := peek32 SPI_STATUS s in
  let s' := access_done s (after_load32 SPI_STATUS s) (Load32 SPI_STATUS st) in
  spi_is_busy s = Returns (Z.testbit st 0, s') /\
  spi_is_done s = Returns (Z.testbit st 1, s') /\
  spi_is_tx_fifo_full s = Returns (Z.testbit st 2, s') /\
  spi_is_tx_fifo_empty s = Returns (Z.testbit st 3, s') /\
  spi_is_rx_fifo_full s = Returns (Z.testbit st 4, s') /\
  spi_is_rx_fifo_empty s = Returns (Z.testbit st 5, s') /\
  spi_has_error s = Returns (Z.testbit st 6, s') /\
  spi_is_interrupt_pending s = Returns (Z.testbit st 7, s').
Proof.
  cbv zeta.
  repeat split;
    unfold spi_is_busy, spi_is_done, spi_is_tx_fifo_full, spi_is_tx_fifo_empty,
      spi_is_rx_fifo_full, spi_is_rx_fifo_empty, spi_has_error,
      spi_is_interrupt_pending;
    rewrite bind_unfold; unfold SPI_REG_get, ret;
    unfold STAT_BUSY, STAT_DONE, STAT_TX_FULL, STAT_TX_EMPTY, STAT_RX_FULL,
      STAT_RX_EMPTY, STAT_ERROR, STAT_IRQ_PEND;
    now rewrite flag_is_bit by lia.
Qed.

(** The three single-flag switches share one shape: read Control, set or
    clear one bit, write it back. *)
Lemma flag_switch (mask_bit : Z) (enable : bool) (s : state D) :
  0 <= mask_bit < 32 ->
  initialized s = true ->
  exists s' c',
    bind get_initialized (fun init =>
      if negb init then ret SPI_ERROR_INVALID_MODE else
      bind (SPI_REG_get SPI_CONTROL) (fun control =>
        bind (SPI_REG_set SPI_CONTROL
                (if enable then Z.lor control (Z.shiftl 1 mask_bit)
                 else clear_bits control (Z.shiftl 1 mask_bit)))
             (fun _ => ret SPI_OK))) s = Returns (SPI_OK, s') /\
    rmw_control s s' c' /\
    Z.testbit c' mask_bit = enable /\
    (forall i, 0 <= i -> i <> mask_bit ->
               Z.testbit c' i = Z.testbit (peek32 SPI_CONTROL s) i) /\
    current_mode s' = current_mode s /\ current_cs s' = current_cs s /\
    initialized s' = true.
Proof.
  intros Hk Hi. eexists; eexists. split; [|split; [|split; [|split]]].
  - rewrite bind_get_initialized, Hi. cbn [negb]. run. reflexivity.
  - unfold access_done. cbn [current_mode current_cs initialized hw bus].
    apply rmw_control_intro.
  - unfold peek32. rewrite single_bit_update by lia. now rewrite Z.eqb_refl.
  - intros i Hi0 Hne. unfold peek32. rewrite single_bit_update by lia.
    now destruct (Z.eqb_spec i mask_bit).
  - repeat split. exact Hi.
Qed.

(** X2: on an initialized controller [spi_enable_loopback enable] returns
    [SPI_OK] after one read-modify-write of Control whose written value has
    bit 7 equal to [enable] and every other bit as read; the driver
    variables are unchanged. *)
Theorem spi_enable_loopback_bit (enable : bool) (s : state D) :
  initialized s = true ->
  exists s' c',
    spi_enable_loopback enable s = Returns (SPI_OK, s') /\
    rmw_control s s' c' /\
    Z.testbit c' 7 = enable /\
    (forall i, 0 <= i -> i <> 7 ->
               Z.testbit c' i = Z.testbit (peek32 SPI_CONTROL s) i) /\
    current_mode s' = current_mode s /\ current_cs s' = current_cs s /\
    initialized s' = true.
Proof. intros Hi. apply (flag_switch 7 enable s); [lia | exact Hi]. Qed.

(** X3: on an initialized controller [spi_set_cs_polarity active_high]
    returns [SPI_OK] after one read-modify-write of Control whose written
    value has bit 8 equal to [active_high] and every other bit as read. *)
Theorem spi_set_cs_polarity_bit (active_high : bool) (s : state D) :
  initialized s = true ->
  exists s' c',
    spi_set_cs_polarity active_high s = Returns (SPI_OK, s') /\
    rmw_control s s' c' /\
    Z.testbit c' 8 = active_high /\
    (forall i, 0 <= i -> i <> 8 ->
               Z.testbit c' i = Z.testbit (peek32 SPI_CONTROL s) i) /\
    current_mode s' = current_mode s /\ current_cs s' = current_cs s /\
    initialized s' = true.
Proof. intros Hi. apply (flag_switch 8 active_high s); [lia | exact Hi]. Qed.

(** X4: on an initialized controller [spi_enable_interrupt enable] returns
    [SPI_OK] after one read-modify-write of Control whose written value has
    bit 5 equal to [enable] and every other bit as read; before
    initialization it returns [SPI_ERROR_INVALID_MODE] and touches
    nothing. *)
Theorem spi_enable_interrupt_bit (enable : bool) (s : state D) :
  (initialized s = false ->
   spi_enable_interrupt enable s = Returns (SPI_ERROR_INVALID_MODE, s)) /\
  (initialized s = true ->
   exists s' c',
     spi_enable_interrupt enable s = Returns (SPI_OK, s') /\
     rmw_control s s' c' /\
     Z.testbit c' 5 = enable /\
     (forall i, 0 <= i -> i <> 5 ->
                Z.testbit c' i = Z.testbit (peek32 SPI_CONTROL s) i) /\
     current_mode s' = current_mode s /\ current_cs s' = current_cs s /\
     initialized s' = true).
Proof.
  split; intros Hi.
  - unfold spi_enable_interrupt. now rewrite bind_get_initialized, Hi.
  - apply (flag_switch 5 enable s); [lia | exact Hi].
Qed.

End MoreDriverFacts.

Section SelectAndInit.
Context {D : Type} `{Device D}.

(** X5: on an initialized controller a mode or chip-select value outside
    0..3 is rejected with [SPI_ERROR_INVALID_MODE] after Control has been
    loaded once and before anything is stored; [current_mode] and
    [current_cs] keep their values. *)
Theorem out_of_range_enum_rejected (v : Z) (s : state D) :
  initialized s = true ->
  v < 0 \/ 3 < v ->
  let s' := access_done s (after_load32 SPI_CONTROL s)
                        (Load32 SPI_CONTROL (peek32 SPI_CONTROL s)) in
  spi_set_mode v s = Returns (SPI_ERROR_INVALID_MODE, s') /\
  spi_select_device v s = Returns (SPI_ERROR_INVALID_MODE, s') /\
  issued s s' = [Load32 SPI_CONTROL (peek32 SPI_CONTROL s)] /\
  current_mode s' = current_mode s /\ current_cs s' = current_cs s.
Proof.
  intros Hi Hv. cbv zeta.
  split; [|split; [|split; [|split; reflexivity]]].
  - unfold spi_set_mode. rewrite bind_get_initialized, Hi. cbn [negb]. run.
    destruct v as [|[[p|p|]|[p|p|]|]|p]; try reflexivity; lia.
  - unfold spi_select_device. rewrite bind_get_initialized, Hi. cbn [negb]. run.
    destruct v as [|[[p|p|]|[p|p|]|]|p]; try reflexivity; lia.
  - now apply (issued_app s _ [_]).
Qed.

(** X6: on an initialized controller [spi_select_device] with a line in
    0..3 returns [SPI_OK], records the line in [current_cs], and writes
    Control back with exactly one of the two select bits set -- bit 3 for
    the even lines, bit 4 for the odd ones -- and every other bit as
    read. *)
Theorem spi_select_device_exclusive (cs_line : spi_cs_t) (s : state D) :
  initialized s = true ->
  SPI_CS_0 <= cs_line <= SPI_CS_3 ->
  exists s' c',
    spi_select_device cs_line s = Returns (SPI_OK, s') /\
    rmw_control s s' c' /\ current_cs s' = cs_line /\
    Z.testbit c' 3 = Z.even cs_line /\ Z.testbit c' 4 = Z.odd cs_line /\
    (forall i, 0 <= i -> i <> 3 -> i <> 4 ->
               Z.testbit c' i = Z.testbit (peek32 SPI_CONTROL s) i).
Proof.
  unfold SPI_CS_0, SPI_CS_3. intros Hi Hcs.
  assert (Hother : forall k i, k = 3 \/ k = 4 ->
            0 <= i -> i <> 3 -> i <> 4 ->
            Z.testbit
              (wrap32 (Z.lor (clear_bits (peek32 SPI_CONTROL s)
                                         (Z.lor CTRL_CS0 CTRL_CS1))
                             (Z.shiftl 1 k))) i
            = Z.testbit (peek32 SPI_CONTROL s) i).
  { intros k i Hk H0 H3 H4. bits. unfold CTRL_CS0, CTRL_CS1.
    rewrite !testbit_shiftl1 by lia.
    destruct (Z.eqb_spec k i); [lia|].
    destruct (Z.eqb_spec 3 i); [lia|]. destruct (Z.eqb_spec 4 i); [lia|].
    unfold peek32. rewrite testbit_wrap32.
    destruct (i <? 32); cbn [andb negb orb]; [|reflexivity].
    now rewrite !andb_true_r, orb_false_r. }
  assert (Hcases : cs_line = 0 \/ cs_line = 1 \/ cs_line = 2 \/ cs_line = 3)
    by lia.
  destruct Hcases as [-> | [-> | [-> | ->]]];
    (eexists; eexists; split; [|split; [|split; [|split; [|split]]]];
     [ unfold spi_select_device; run; rewrite Hi; reflexivity
     | unfold access_done; cbn [current_mode current_cs initialized hw bus];
       apply rmw_control_intro
     | reflexivity
     | bits;
       change (Z.testbit (Z.lor CTRL_CS0 CTRL_CS1) 3) with true;
       rewrite ?andb_false_r, ?orb_true_r; reflexivity
     | bits;
       change (Z.testbit (Z.lor CTRL_CS0 CTRL_CS1) 4) with true;
       rewrite ?andb_false_r, ?orb_true_r; reflexivity
     | intros i; first [ apply (Hother 3 i); now left
                       | apply (Hother 4 i); now right ] ]).
Qed.

(** X7: on an initialized controller [spi_deselect_device] returns
    [SPI_OK] for every line value, in range or not, and never changes
    [current_cs]; for CS0 the value written back to Control differs from
    the one read only in bit 3 (cleared), for CS1 only in bit 4. *)
Theorem spi_deselect_device_bits (cs_line : spi_cs_t) (s : state D) :
  initialized s = true ->
  exists s' c',
    spi_deselect_device cs_line s = Returns (SPI_OK, s') /\
    rmw_control s s' c' /\
    current_cs s' = current_cs s /\ current_mode s' = current_mode s /\
    (cs_line = SPI_CS_0 ->
     forall i, 0 <= i ->
       Z.testbit c' i =
         if i =? 3 then false else Z.testbit (peek32 SPI_CONTROL s) i) /\
    (cs_line = SPI_CS_1 ->
     forall i, 0 <= i ->
       Z.testbit c' i =
         if i =? 4 then false else Z.testbit (peek32 SPI_CONTROL s) i).
Proof.
  intros Hi. eexists; eexists. split; [|split; [|split; [|split; [|split]]]].
  - unfold spi_deselect_device. run. rewrite Hi. reflexivity.
  - unfold access_done. cbn [current_mode current_cs initialized hw bus].
    apply rmw_control_intro.
  - reflexivity.
  - reflexivity.
  - intros -> i Hi0. cbn [SPI_CS_0]. unfold peek32.
    apply (single_bit_update _ 3 i false); lia.
  - intros -> i Hi0. cbn [SPI_CS_1]. unfold peek32.
    apply (single_bit_update _ 4 i false); lia.
Qed.

(** The value [spi_init] stores to Control. *)
Lemma spi_init_run (mode : spi_mode_t) (clk_div : Z) (s : state D) :
  exists control m,
    spi_init mode clk_div s =
      Returns (tt,
               mkState m (current_cs s) true
                 (dev_store32 SPI_STATUS 0
                    (dev_store32 SPI_CLK_DIV (wrap32 clk_div)
                       (dev_store32 SPI_CONTROL control (hw s))))
                 (Store32 SPI_STATUS 0
                    :: Store32 SPI_CLK_DIV (wrap32 clk_div)
                    :: Store32 SPI_CONTROL control :: bus s)) /\
    m = (if (0 <=? mode) && (mode <=? 3) then mode else SPI_MODE_0) /\
    control = Z.lor (Z.shiftl m 1)
                    (if current_cs s =? SPI_CS_0 then CTRL_CS0
                     else if current_cs s =? SPI_CS_1 then CTRL_CS1 else 0).
Proof.
  unfold spi_init.
  destruct mode as [|[[p|p|]|[p|p|]|]|p];
    (eexists; eexists; split; [run; reflexivity|]);
    (split; [reflexivity|]);
    destruct (current_cs s =? SPI_CS_0), (current_cs s =? SPI_CS_1);
    reflexivity.
Qed.

(** X8: [spi_init] never reads Control: in any state, initialized or not,
    it makes exactly three stores -- Control, then ClockDivider, then
    Status := 0 -- sets [initialized], keeps [current_cs], and the Control
    value it stores has the Start bit and every bit from 5 upwards clear,
    so interrupt enable, loopback and chip-select polarity set earlier are
    dropped. *)
Theorem spi_init_overwrites_control
        (mode : spi_mode_t) (clk_div : Z) (s : state D) :
  exists s' control,
    spi_init mode clk_div s = Returns (tt, s') /\
    issued s s' = [Store32 SPI_STATUS 0;
                   Store32 SPI_CLK_DIV (wrap32 clk_div);
                   Store32 SPI_CONTROL control] /\
    initialized s' = true /\ current_cs s' = current_cs s /\
    Z.testbit control 0 = false /\
    (forall i, 5 <= i -> Z.testbit control i = false).
Proof.
  destruct (spi_init_run mode clk_div s) as (control & m & Hrun & Hm & Hc).
  eexists; exists control. split; [exact Hrun|].
  split; [now apply (issued_app s _ [_; _; _])|].
  split; [reflexivity|]. split; [reflexivity|].
  assert (Hm3 : m = 0 \/ m = 1 \/ m = 2 \/ m = 3).
  { subst m. destruct (Z.leb_spec 0 mode), (Z.leb_spec mode 3);
      cbn [andb]; unfold SPI_MODE_0; lia. }
  assert (Hrange : 0 <= control < 32 /\ Z.testbit control 0 = false).
  { subst control.
    destruct Hm3 as [-> | [-> | [-> | ->]]];
      destruct (current_cs s =? SPI_CS_0), (current_cs s =? SPI_CS_1);
      vm_compute; repeat split; congruence. }
  split; [apply Hrange|].
  intros i Hi5. apply low_bits_only; [apply Hrange | exact Hi5].
Qed.

(** X9: the mode [spi_init] records and encodes is the requested one when
    it is in 0..3 and mode 0 otherwise (no error is reported); bits 2 and 1
    of the stored Control value are that mode's polarity and phase, bit 3
    is set exactly when [current_cs] is CS0 and bit 4 exactly when it is
    CS1. *)
Theorem spi_init_mode_fallback
        (mode : spi_mode_t) (clk_div : Z) (s : state D) :
  exists s' control,
    spi_init mode clk_div s = Returns (tt, s') /\
    bus s' = Store32 SPI_STATUS 0
               :: Store32 SPI_CLK_DIV (wrap32 clk_div)
               :: Store32 SPI_CONTROL control :: bus s /\
    current_mode s' =
      (if (0 <=? mode) && (mode <=? 3) then mode else SPI_MODE_0) /\
    Z.testbit control 2 = CPOL (current_mode s') /\
    Z.testbit control 1 = CPHA (current_mode s') /\
    Z.testbit control 3 = (current_cs s =? SPI_CS_0) /\
    Z.testbit control 4 = (current_cs s =? SPI_CS_1).
Proof.
  destruct (spi_init_run mode clk_div s) as (control & m & Hrun & Hm & Hc).
  eexists; exists control. split; [exact Hrun|].
  split; [reflexivity|]. split; [exact Hm|].
  cbn [current_mode].
  assert (Hm3 : m = 0 \/ m = 1 \/ m = 2 \/ m = 3).
  { subst m. destruct (Z.leb_spec 0 mode), (Z.leb_spec mode 3);
      cbn [andb]; unfold SPI_MODE_0; lia. }
  subst control.
  destruct (Z.eqb_spec (current_cs s) SPI_CS_0) as [E0 | E0];
    [rewrite E0|];
    destruct (Z.eqb_spec (current_cs s) SPI_CS_1) as [E1 | E1];
    try (rewrite E1 in E0; discriminate E0);
    destruct Hm3 as [-> | [-> | [-> | ->]]];
    repeat split; reflexivity.
Qed.

(** X10: deselecting does not forget the line.  On an initialized
    controller, select CS0 or CS1, deselect the same line, then call
    [spi_init]: the deselect writes Control with the line's bit clear, and
    the re-initialization writes Control with that bit set again, because
    [spi_deselect_device] leaves [current_cs] as it was. *)
Theorem deselect_then_init_reasserts
        (cs_line : spi_cs_t) (mode : spi_mode_t) (clk_div : Z) (s : state D) :
  initialized s = true ->
  cs_line = SPI_CS_0 \/ cs_line = SPI_CS_1 ->
  exists s1 s2 s3 c2 c3,
    spi_select_device cs_line s = Returns (SPI_OK, s1) /\
    spi_deselect_device cs_line s1 = Returns (SPI_OK, s2) /\
    rmw_control s1 s2 c2 /\
    Z.testbit c2 (3 + cs_line) = false /\
    spi_init mode clk_div s2 = Returns (tt, s3) /\
    bus s3 = Store32 SPI_STATUS 0
               :: Store32 SPI_CLK_DIV (wrap32 clk_div)
               :: Store32 SPI_CONTROL c3 :: bus s2 /\
    Z.testbit c3 (3 + cs_line) = true.
Proof.
  intros Hi Hcs.
  assert (Hsel : exists s1, spi_select_device cs_line s = Returns (SPI_OK, s1) /\
                            initialized s1 = true /\ current_cs s1 = cs_line).
  { destruct Hcs as [-> | ->]; eexists;
      (split; [unfold spi_select_device; run; rewrite Hi; reflexivity|]);
      split; [exact Hi | reflexivity | exact Hi | reflexivity]. }
  destruct Hsel as (s1 & Hsel & Hi1 & Hcs1).
  assert (Hde : exists s2 c2,
             spi_deselect_device cs_line s1 = Returns (SPI_OK, s2) /\
             rmw_control s1 s2 c2 /\ current_cs s2 = cs_line /\
             Z.testbit c2 (3 + cs_line) = false).
  { eexists; eexists. split; [|split; [|split]].
    - unfold spi_deselect_device. run. rewrite Hi1. reflexivity.
    - unfold access_done. cbn [current_mode current_cs initialized hw bus].
      apply rmw_control_intro.
    - exact Hcs1.
    - unfold peek32.
      destruct Hcs as [-> | ->]; cbn [SPI_CS_0 SPI_CS_1 Z.add].
      + now rewrite (single_bit_update _ 3 3 false) by lia.
      + now rewrite (single_bit_update _ 4 4 false) by lia. }
  destruct Hde as (s2 & c2 & Hde & Hrmw & Hcs2 & Hbit2).
  destruct (spi_init_run mode clk_div s2) as (c3 & m & Hrun & Hm & Hc3).
  exists s1, s2. eexists. exists c2, c3.
  split; [exact Hsel|]. split; [exact Hde|]. split; [exact Hrmw|].
  split; [exact Hbit2|]. split; [exact Hrun|]. split; [reflexivity|].
  assert (Hm3 : m = 0 \/ m = 1 \/ m = 2 \/ m = 3).
  { subst m. destruct (Z.leb_spec 0 mode), (Z.leb_spec mode 3);
      cbn [andb]; unfold SPI_MODE_0; lia. }
  subst c3. rewrite Hcs2.
  destruct Hcs as [-> | ->];
    destruct Hm3 as [-> | [-> | [-> | ->]]]; reflexivity.
Qed.

End SelectAndInit.

(** *** What an operation may touch *)

Section Footprints.
Context {D : Type} `{Device D}.

Lemma only_refl (P : access -> Prop) (s : state D) : only P s s.
Proof. exists []. split; [reflexivity | constructor]. Qed.

Lemma only_trans (P : access -> Prop) (s1 s2 s3 : state D) :
  only P s1 s2 -> only P s2 s3 -> only P s1 s3.
Proof.
  intros (l1 & Hb1 & Hl1) (l2 & Hb2 & Hl2). exists (l2 ++ l1). split.
  - now rewrite Hb2, Hb1, app_assoc.
  - apply Forall_app. now split.
Qed.

Lemma only_impl (P Q : access -> Prop) (s s' : state D) :
  (forall a, P a -> Q a) -> only P s s' -> only Q s s'.
Proof.
  intros HPQ (l & Hb & Hl). exists l. split; [exact Hb|].
  eapply Forall_impl; eauto.
Qed.

Lemma keeps_impl {A : Type} (P Q : access -> Prop) (c : M D A) :
  (forall a, P a -> Q a) -> keeps P c -> keeps Q c.
Proof.
  intros HPQ Hc s a s' Hr. destruct (Hc s a s' Hr) as (Ho & Hrest).
  split; [now apply (only_impl P Q) | exact Hrest].
Qed.

Lemma keeps_ret {A : Type} (P : access -> Prop) (a : A) : keeps P (ret (D := D) a).
Proof.
  intros s a' s' [= <- <-]. split; [apply only_refl | repeat split].
Qed.

Lemma keeps_bind {A B : Type} (P : access -> Prop) (c : M D A) (k : A -> M D B) :
  keeps P c -> (forall a, keeps P (k a)) -> keeps P (bind c k).
Proof.
  intros Hc Hk s b s' Hr. rewrite bind_unfold in Hr.
  destruct (c s) as [[a s1]| |] eqn:Hcs; try discriminate.
  destruct (Hc s a s1 Hcs) as (Ho1 & Hm1 & Hc1 & Hi1).
  destruct (Hk a s1 b s' Hr) as (Ho2 & Hm2 & Hc2 & Hi2).
  split; [now apply (only_trans P s s1 s')|].
  repeat split; congruence.
Qed.

Lemma keeps_get_initialized (P : access -> Prop) : keeps P (get_initialized (D := D)).
Proof.
  intros s a s' [= <- <-]. split; [apply only_refl | repeat split].
Qed.

Lemma keeps_access (P : access -> Prop) (s : state D) (d : D) (a : access) :
  P a ->
  only P s (access_done s d a) /\
  current_mode (access_done s d a) = current_mode s /\
  current_cs (access_done s d a) = current_cs s /\
  initialized (access_done s d a) = initialized s.
Proof.
  intros Ha. split; [|repeat split].
  exists [a]. split; [reflexivity | now constructor].
Qed.

Lemma keeps_REG_get (P : access -> Prop) (off : Z) :
  (forall v, P (Load32 off v)) -> keeps P (SPI_REG_get off).
Proof. intros HP s a s' [= <- <-]. now apply keeps_access. Qed.

Lemma keeps_REG_set (P : access -> Prop) (off v : Z) :
  P (Store32 off (wrap32 v)) -> keeps P (SPI_REG_set off v).
Proof. intros HP s a s' [= <- <-]. now apply keeps_access. Qed.

Lemma keeps_REG8_get (P : access -> Prop) (off : Z) :
  (forall v, P (Load8 off v)) -> keeps P (SPI_REG8_get off).
Proof. intros HP s a s' [= <- <-]. now apply keeps_access. Qed.

Lemma keeps_REG8_set (P : access -> Prop) (off v : Z) :
  P (Store8 off (wrap8 v)) -> keeps P (SPI_REG8_set off v).
Proof. intros HP s a s' [= <- <-]. now apply keeps_access. Qed.

Lemma keeps_status_flag (P : access -> Prop) (mask : Z) :
  (forall v, P (Load32 SPI_STATUS v)) ->
  keeps P (bind (SPI_REG_get SPI_STATUS)
                (fun st => ret (negb (Z.land st mask =? 0)))).
Proof.
  intros HP. apply keeps_bind; [now apply keeps_REG_get|].
  intros st. apply keeps_ret.
Qed.

Lemma keeps_wait_while_busy (P : access -> Prop) (fuel : nat) :
  (forall v, P (Load32 SPI_STATUS v)) -> keeps P (wait_while_busy fuel).
Proof.
  intros HP. induction fuel as [|fuel IH]; [intros s a s'; discriminate|].
  cbn [wait_while_busy]. apply keeps_bind; [now apply keeps_status_flag|].
  intros [|]; [exact IH | apply keeps_ret].
Qed.

Lemma keeps_spi_transfer (Q : Z -> Prop) (fuel : nat) (tx_data : Z) (rx_data : bool) :
  Q (wrap8 tx_data) ->
  keeps (transfer_access Q) (spi_transfer fuel tx_data rx_data).
Proof.
  intros HQ. unfold spi_transfer.
  assert (Hst : forall v, transfer_access Q (Load32 SPI_STATUS v))
    by (intros v; now left).
  apply keeps_bind; [apply keeps_get_initialized|]. intros init.
  destruct (negb init); [apply keeps_ret|].
  apply keeps_bind; [now apply keeps_status_flag|]. intros busy.
  destruct busy; [apply keeps_ret|].
  apply keeps_bind; [now apply keeps_REG8_set|]. intros _.
  apply keeps_bind; [apply keeps_REG_get; intros v; now right|].
  intros control.
  apply keeps_bind.
  { apply keeps_REG_set. split; [reflexivity|]. bits.
    change (Z.testbit CTRL_START 0) with true. now rewrite orb_true_r. }
  intros _. destruct rx_data; [|apply keeps_ret].
  apply keeps_bind; [now apply keeps_wait_while_busy|]. intros _.
  apply keeps_bind; [now apply keeps_status_flag|]. intros err.
  destruct err; [apply keeps_ret|].
  apply keeps_bind; [now apply keeps_REG8_get|]. intros v. apply keeps_ret.
Qed.

(** X11: whenever [spi_transfer] returns, with whatever result, the bus
    accesses it has made are loads of Status and Control, stores to TxData
    of the byte it was given (truncated to 8 bits), stores to Control with
    the Start bit set, and loads of RxData; nothing else is read or
    written -- in particular not ClockDivider, Status or the FIFOs -- and
    [current_mode], [current_cs] and [initialized] are unchanged. *)
Theorem spi_transfer_footprint
        (fuel : nat) (tx_data : Z) (rx_data : bool)
        (s s' : state D) (r : spi_error_t * option Z) :
  spi_transfer fuel tx_data rx_data s = Returns (r, s') ->
  only (transfer_access (eq (wrap8 tx_data))) s s' /\
  current_mode s' = current_mode s /\ current_cs s' = current_cs s /\
  initialized s' = initialized s.
Proof.
  apply (keeps_spi_transfer (eq (wrap8 tx_data)) fuel tx_data rx_data eq_refl).
Qed.

End Footprints.

Section BulkFootprints.
Context {D : Type} `{Device D}.

Lemma keeps_out_of_bounds {A : Type} (P : access -> Prop) :
  keeps P (out_of_bounds (D := D) (A := A)).
Proof. intros s a s'. discriminate. Qed.

Lemma keeps_load_byte (P : access -> Prop) (buffer : list Z) (i : nat) :
  keeps P (load_byte (D := D) buffer i).
Proof.
  unfold load_byte. destruct (buffer !! i);
    [apply keeps_ret | apply keeps_out_of_bounds].
Qed.

Lemma keeps_store_byte (P : access -> Prop) (buffer : list Z) (i : nat) (v : Z) :
  keeps P (store_byte (D := D) buffer i v).
Proof.
  unfold store_byte. destruct (i <? length buffer)%nat;
    [apply keeps_ret | apply keeps_out_of_bounds].
Qed.

(** Without a destination [spi_transfer] can only succeed or be refused
    at one of its two guards. *)
Lemma spi_transfer_no_rx_result
      (fuel : nat) (tx_data : Z) (s s' : state D) (e : spi_error_t)
      (r : option Z) :
  spi_transfer fuel tx_data false s = Returns ((e, r), s') ->
  r = None /\
  (e = SPI_OK \/ e = SPI_ERROR_BUSY \/ e = SPI_ERROR_INVALID_MODE).
Proof.
  unfold spi_transfer. rewrite bind_get_initialized.
  destruct (negb (initialized s)); [intros [= <- <- <-]; auto|].
  run.
  destruct (Z.land (peek32 SPI_STATUS s) STAT_BUSY =? 0);
    intros [= <- <- <-]; auto.
Qed.

Lemma keeps_write_bytes_loop (fuel : nat) (data : list Z) (n : nat) :
  forall i : nat,
    keeps (transfer_access
             (fun v => exists j b, (i <= j < i + n)%nat /\
                                   data !! j = Some b /\ v = wrap8 b))
          (write_bytes_loop fuel data i n).
Proof.
  induction n as [|n IH]; intros i; [apply keeps_ret|].
  cbn [write_bytes_loop].
  intros s a s' Hr. rewrite bind_unfold in Hr. unfold load_byte in Hr.
  destruct (data !! i) as [b|] eqn:Hb; [|discriminate].
  cbn [ret] in Hr. revert s a s' Hr.
  change (keeps (transfer_access
             (fun v => exists j b0, (i <= j < i + S n)%nat /\
                                    data !! j = Some b0 /\ v = wrap8 b0))
            (bind (spi_transfer fuel b false)
                  (fun r => if negb (is_ok (fst r)) then ret (fst r)
                            else write_bytes_loop fuel data (S i) n))).
  apply keeps_bind.
  - apply keeps_spi_transfer. exists i, b. repeat split; [lia | lia | exact Hb].
  - intros r. destruct (negb (is_ok (fst r))); [apply keeps_ret|].
    eapply keeps_impl; [|apply (IH (S i))].
    intros [off v|off v|off v|off v]; cbn [transfer_access]; try tauto.
    intros (Hoff & j & b0 & Hj & Hd & Hv). split; [exact Hoff|].
    exists j, b0. repeat split; try assumption; lia.
Qed.

Lemma write_bytes_loop_result (fuel : nat) (data : list Z) (n : nat) :
  forall (i : nat) (s s' : state D) (e : spi_error_t),
    write_bytes_loop fuel data i n s = Returns (e, s') ->
    e = SPI_OK \/ e = SPI_ERROR_BUSY \/ e = SPI_ERROR_INVALID_MODE.
Proof.
  induction n as [|n IH]; intros i s s' e; [intros [= <- <-]; auto|].
  cbn [write_bytes_loop]. rewrite bind_unfold. unfold load_byte.
  destruct (data !! i) as [b|]; [|discriminate].
  cbn [ret]. rewrite bind_unfold.
  destruct (spi_transfer fuel b false s) as [[[e1 r1] s1]| |] eqn:Htr;
    try discriminate.
  destruct (spi_transfer_no_rx_result _ _ _ _ _ _ Htr) as (_ & He1).
  cbn [fst]. destruct (negb (is_ok e1)); [intros [= <- <-]; exact He1|].
  apply IH.
Qed.

(** X12: whenever [spi_write_bytes] returns, its result is [SPI_OK],
    [SPI_ERROR_BUSY] or [SPI_ERROR_INVALID_MODE] -- it never waits, so it
    never reports a timeout -- every byte it has stored to TxData is one of
    the first [length] bytes of [data], every Control store carries the
    Start bit, nothing but Status, Control and TxData is touched, and the
    driver variables are unchanged. *)
Theorem spi_write_bytes_footprint
        (fuel : nat) (data : list Z) (length : nat)
        (s s' : state D) (e : spi_error_t) :
  spi_write_bytes fuel (Some data) length s = Returns (e, s') ->
  (e = SPI_OK \/ e = SPI_ERROR_BUSY \/ e = SPI_ERROR_INVALID_MODE) /\
  only (transfer_access
          (fun v => exists j b, (j < length)%nat /\
                                data !! j = Some b /\ v = wrap8 b)) s s' /\
  current_mode s' = current_mode s /\ current_cs s' = current_cs s /\
  initialized s' = initialized s.
Proof.
  unfold spi_write_bytes. rewrite bind_get_initialized.
  destruct (negb (initialized s)).
  - intros [= <- <-]. split; [auto|]. split; [apply only_refl | repeat split].
  - intros Hr. split; [exact (write_bytes_loop_result _ _ _ _ _ _ _ Hr)|].
    destruct (keeps_write_bytes_loop fuel data length 0 s e s' Hr)
      as (Ho & Hrest).
    split; [|exact Hrest].
    eapply only_impl; [|exact Ho].
    intros [off v|off v|off v|off v]; cbn [transfer_access]; try tauto.
    intros (Hoff & j & b0 & Hj & Hd & Hv). split; [exact Hoff|].
    exists j, b0. repeat split; try assumption; lia.
Qed.

Lemma keeps_read_bytes_loop (fuel n : nat) :
  forall (i : nat) (buffer : list Z),
    keeps (transfer_access (eq 255)) (read_bytes_loop fuel buffer i n).
Proof.
  induction n as [|n IH]; intros i buffer; [apply keeps_ret|].
  cbn [read_bytes_loop]. apply keeps_bind.
  - now apply keeps_spi_transfer.
  - intros [e out]. apply keeps_bind.
    + destruct out; [apply keeps_store_byte | apply keeps_ret].
    + intros b. destruct (negb (is_ok e)); [apply keeps_ret | apply IH].
Qed.

Lemma read_bytes_loop_frame (fuel n : nat) :
  forall (i : nat) (buffer b' : list Z) (s s' : state D) (e : spi_error_t),
    read_bytes_loop fuel buffer i n s = Returns ((e, b'), s') ->
    length b' = length buffer /\
    forall j, (j < i \/ i + n <= j)%nat -> b' !! j = buffer !! j.
Proof.
  induction n as [|n IH]; intros i buffer b' s s' e.
  - intros [= <- <- <-]. split; reflexivity.
  - cbn [read_bytes_loop]. rewrite bind_unfold.
    destruct (spi_transfer fuel 255 true s) as [[[e1 out] s1]| |];
      try discriminate.
    rewrite bind_unfold.
    assert (Hst : forall b1 s2,
               match out with
               | Some v => store_byte buffer i v
               | None => ret buffer
               end s1 = Returns (b1, s2) ->
               s2 = s1 /\ length b1 = length buffer /\
               forall j, j <> i -> b1 !! j = buffer !! j).
    { intros b1 s2. destruct out as [v|].
      - unfold store_byte. destruct (i <? length buffer)%nat; [|discriminate].
        intros [= <- <-]. split; [reflexivity|].
        split; [apply length_insert|].
        intros j Hj. now apply list_lookup_insert_ne.
      - intros [= <- <-]. repeat split. }
    destruct (match out with
              | Some v => store_byte buffer i v
              | None => ret buffer
              end s1) as [[b1 s2]| |] eqn:Hsb; try discriminate.
    destruct (Hst b1 s2 eq_refl) as (-> & Hlen1 & Hsame1).
    destruct (negb (is_ok e1)).
    + intros [= <- <- <-]. split; [exact Hlen1|].
      intros j Hj. apply Hsame1. lia.
    + intros Hr. destruct (IH _ _ _ _ _ _ Hr) as (Hlen & Hsame).
      split; [congruence|].
      intros j Hj. rewrite Hsame by lia. apply Hsame1. lia.
Qed.

(** X13: whenever [spi_read_bytes] returns, the buffer it hands back has
    the length of the one it was given and the same content at every
    position from [length] on (only the first [length] entries can have
    been written); every byte it has stored to TxData is the filler 0xFF;
    nothing but Status, Control, TxData and RxData is touched, and the
    driver variables are unchanged. *)
Theorem spi_read_bytes_frame
        (fuel : nat) (buffer : list Z) (length : nat)
        (s s' : state D) (e : spi_error_t) (out : option (list Z)) :
  spi_read_bytes fuel (Some buffer) length s = Returns ((e, out), s') ->
  (exists b',
      out = Some b' /\ List.length b' = List.length buffer /\
      forall j, (length <= j)%nat -> b' !! j = buffer !! j) /\
  only (transfer_access (eq 0xFF)) s s' /\
  current_mode s' = current_mode s /\ current_cs s' = current_cs s /\
  initialized s' = initialized s.
Proof.
  unfold spi_read_bytes. rewrite bind_get_initialized.
  destruct (negb (initialized s)).
  - intros [= <- <- <-]. split.
    + exists buffer. repeat split.
    + split; [apply only_refl | repeat split].
  - rewrite bind_unfold.
    destruct (read_bytes_loop fuel buffer 0 length s) as [[[e0 b0] s0]| |] eqn:Hl;
      try discriminate.
    intros [= <- <- <-].
    destruct (read_bytes_loop_frame _ _ _ _ _ _ _ _ Hl) as (Hlen & Hsame).
    split.
    + exists b0. split; [reflexivity|]. split; [exact Hlen|].
      intros j Hj. apply Hsame. lia.
    + exact (keeps_read_bytes_loop fuel length 0 buffer s _ s0 Hl).
Qed.

End BulkFootprints.

Section TransferEngine.
Context {D : Type} `{Device D}.

(** X14: the fire-and-forget path.  On an initialized controller whose
    Busy bit reads clear, [spi_transfer] without a destination returns
    [SPI_OK] for every poll budget (it does not wait) after exactly four
    accesses, in this order: the load of Status, the store of the byte to
    TxData, a load of Control and a store to Control of the value just
    read with the Start bit set and every other bit unchanged. *)
Theorem spi_transfer_fire_and_forget (tx_data : Z) (s : state D) :
  initialized s = true ->
  Z.land (peek32 SPI_STATUS s) STAT_BUSY = 0 ->
  exists c c',
    (forall fuel,
        spi_transfer fuel tx_data false s =
          Returns ((SPI_OK, None), started s tx_data)) /\
    bus (started s tx_data) =
      Store32 SPI_CONTROL c' :: Load32 SPI_CONTROL c
        :: Store8 SPI_TX_DATA (wrap8 tx_data)
        :: Load32 SPI_STATUS (peek32 SPI_STATUS s) :: bus s /\
    forall i, 0 <= i ->
              Z.testbit c' i = if i =? 0 then true else Z.testbit c i.
Proof.
  intros Hi Hb. eexists; eexists. split; [|split].
  - intros fuel. now rewrite spi_transfer_idle.
  - reflexivity.
  - intros i Hi0. unfold peek32.
    apply (single_bit_update _ 0 i true); lia.
Qed.

Lemma blocking_wait_is_wait (fuel : nat) (timeout_ms : Z) (s : state D) :
  blocking_wait fuel timeout_ms s = wait_while_busy fuel s.
Proof.
  revert s. induction fuel as [|fuel IH]; intros s; [reflexivity|].
  cbn [blocking_wait wait_while_busy]. run.
  destruct (Z.land (peek32 SPI_STATUS s) STAT_BUSY =? 0); [reflexivity|].
  destruct (0 <? timeout_ms); apply IH.
Qed.

(** X15: with a destination, [spi_transfer_blocking] is [spi_transfer]:
    for every poll budget, byte, bound and state the two calls have the
    same outcome -- the same result, the same byte stored, the same bus
    accesses in the same order. *)
Theorem spi_transfer_blocking_is_transfer
        (fuel : nat) (tx_data timeout_ms : Z) (s : state D) :
  spi_transfer_blocking fuel tx_data true timeout_ms s =
  spi_transfer fuel tx_data true s.
Proof.
  unfold spi_transfer_blocking. rewrite bind_get_initialized.
  destruct (initialized s) eqn:Hi; cbn [negb].
  2:{ unfold spi_transfer. now rewrite bind_get_initialized, Hi. }
  destruct (Z.eq_dec (Z.land (peek32 SPI_STATUS s) STAT_BUSY) 0) as [Hb | Hb].
  - rewrite (bind_returns _ _ s (started s tx_data) (SPI_OK, None))
      by now rewrite spi_transfer_idle.
    cbn [fst is_ok negb]. rewrite (spi_transfer_idle fuel tx_data true s Hi Hb).
    rewrite !(bind_unfold _ _ (started s tx_data)).
    now rewrite blocking_wait_is_wait.
  - rewrite (bind_returns _ _ _ _ _ (spi_transfer_busy fuel s tx_data false Hi Hb)).
    cbn [fst is_ok negb]. now rewrite (spi_transfer_busy fuel s tx_data true Hi Hb).
Qed.

Lemma spi_transfer_timeout
      (fuel : nat) (tx_data : Z) (rx_data : bool) (s s' : state D)
      (r : option Z) :
  spi_transfer fuel tx_data rx_data s = Returns ((SPI_ERROR_TIMEOUT, r), s') ->
  r = None /\ rx_data = true /\
  exists v, bus s' = Load32 SPI_STATUS v :: tl (bus s') /\ Z.testbit v 6 = true.
Proof.
  unfold spi_transfer. rewrite bind_get_initialized.
  destruct (negb (initialized s)); [discriminate|].
  run.
  destruct (Z.land (peek32 SPI_STATUS s) STAT_BUSY =? 0); [|discriminate].
  destruct rx_data; [|discriminate].
  match goal with |- context [wait_while_busy fuel ?s0] =>
    destruct (wait_while_busy fuel s0) as [[[] s1]| |] end;
    try discriminate.
  unfold STAT_ERROR. rewrite land_bit_eqb by lia.
  destruct (Z.testbit (peek32 SPI_STATUS s1) 6) eqn:Herr; [|discriminate].
  intros [= <- <-]. split; [reflexivity|]. split; [reflexivity|].
  exists (peek32 SPI_STATUS s1). split; [reflexivity | exact Herr].
Qed.

(** X16: [SPI_ERROR_TIMEOUT] means the Error flag, not elapsed time.
    Whenever [spi_transfer] or [spi_transfer_blocking] returns
    [SPI_ERROR_TIMEOUT], the last bus access it made is a load of Status
    whose value has the Error bit (bit 6) set, and no byte was stored
    through the destination; [spi_transfer] does so only when it was given
    a destination. *)
Theorem timeout_means_error_flag
        (fuel : nat) (tx_data timeout_ms : Z) (rx_data : bool)
        (s s' : state D) (r : option Z) :
  (spi_transfer fuel tx_data rx_data s = Returns ((SPI_ERROR_TIMEOUT, r), s') ->
   r = None /\ rx_data = true /\
   exists v, bus s' = Load32 SPI_STATUS v :: tl (bus s') /\
             Z.testbit v 6 = true) /\
  (spi_transfer_blocking fuel tx_data rx_data timeout_ms s =
     Returns ((SPI_ERROR_TIMEOUT, r), s') ->
   r = None /\
   exists v, bus s' = Load32 SPI_STATUS v :: tl (bus s') /\
             Z.testbit v 6 = true).
Proof.
  split; [apply spi_transfer_timeout|].
  unfold spi_transfer_blocking. rewrite bind_get_initialized.
  destruct (negb (initialized s)); [discriminate|].
  rewrite bind_unfold.
  destruct (spi_transfer fuel tx_data false s) as [[[e1 r1] s1]| |] eqn:Htr;
    try discriminate.
  destruct (spi_transfer_no_rx_result _ _ _ _ _ _ Htr) as (_ & He1).
  cbn [fst].
  destruct He1 as [-> | [-> | ->]]; cbn [is_ok negb]; try discriminate.
  rewrite bind_unfold.
  destruct (blocking_wait fuel timeout_ms s1) as [[[] s2]| |]; try discriminate.
  run. unfold STAT_ERROR. rewrite land_bit_eqb by lia.
  destruct (Z.testbit (peek32 SPI_STATUS s2) 6) eqn:Herr.
  - intros [= <- <-]. split; [reflexivity|].
    exists (peek32 SPI_STATUS s2). split; [reflexivity | exact Herr].
  - destruct rx_data; discriminate.
Qed.

(** X17: back-to-back writes.  On an initialized controller whose Busy
    bit reads clear at entry but set once Start has been written for the
    first byte, [spi_write_bytes] of two or more bytes sends only the
    first one and returns [SPI_ERROR_BUSY]: the second byte is refused at
    the Busy guard, after one more load of Status, and nothing further is
    issued. *)
Theorem spi_write_bytes_back_to_back
        (fuel : nat) (data : list Z) (b0 b1 : Z) (length : nat) (s : state D) :
  initialized s = true ->
  Z.land (peek32 SPI_STATUS s) STAT_BUSY = 0 ->
  Z.land (peek32 SPI_STATUS (started s b0)) STAT_BUSY <> 0 ->
  data !! 0%nat = Some b0 ->
  data !! 1%nat = Some b1 ->
  (2 <= length)%nat ->
  spi_write_bytes fuel (Some data) length s =
    Returns (SPI_ERROR_BUSY,
             access_done (started s b0)
               (after_load32 SPI_STATUS (started s b0))
               (Load32 SPI_STATUS (peek32 SPI_STATUS (started s b0)))).
Proof.
  intros Hi Hidle Hbusy Hb0 Hb1 Hlen.
  destruct length as [|[|n]]; try lia.
  unfold spi_write_bytes. rewrite bind_get_initialized, Hi. cbn [negb].
  cbn [write_bytes_loop]. unfold load_byte. rewrite Hb0.
  rewrite (bind_returns _ _ s s b0) by reflexivity.
  rewrite (bind_returns _ _ s (started s b0) (SPI_OK, None))
    by now rewrite spi_transfer_idle.
  cbn [fst is_ok negb]. rewrite Hb1.
  rewrite (bind_returns _ _ (started s b0) (started s b0) b1) by reflexivity.
  rewrite (bind_returns _ _ _ _ _
             (spi_transfer_busy fuel (started s b0) b1 false Hi Hbusy)).
  reflexivity.
Qed.

(** X18: nothing to do.  On an initialized controller a bulk operation
    given no buffer (both buffers, for [spi_transfer_bytes]) or a length
    of zero returns [SPI_OK] without a single bus access and hands the
    receive buffer back as it was. *)
Theorem bulk_nothing_to_do (fuel : nat) (s : state D) :
  initialized s = true ->
  (forall length, spi_write_bytes fuel None length s = Returns (SPI_OK, s)) /\
  (forall length,
      spi_read_bytes fuel None length s = Returns ((SPI_OK, None), s)) /\
  (forall length,
      spi_transfer_bytes fuel None None length s = Returns ((SPI_OK, None), s)) /\
  (forall data, spi_write_bytes fuel (Some data) 0 s = Returns (SPI_OK, s)) /\
  (forall buffer,
      spi_read_bytes fuel (Some buffer) 0 s =
        Returns ((SPI_OK, Some buffer), s)) /\
  (forall tx_data rx_data,
      spi_transfer_bytes fuel tx_data rx_data 0 s = Returns ((SPI_OK, rx_data), s)).
Proof.
  intros Hi.
  repeat split; intros;
    unfold spi_write_bytes, spi_read_bytes, spi_transfer_bytes;
    rewrite bind_get_initialized, Hi; cbn [negb]; try reflexivity.
  destruct tx_data, rx_data; reflexivity.
Qed.

End TransferEngine.

Section FifoAndShutdown.
Context {D : Type} `{Device D}.

(** X19: [spi_fifo_write] is guarded by the TxFull flag.  On an
    initialized controller it loads Status once; if bit 2 of the value is
    set it returns [SPI_ERROR_FIFO_FULL] and has stored nothing; otherwise
    it returns [SPI_OK] after one 8-bit store of the byte to TxFifo.
    TxData and Control are not touched in either case. *)
Theorem spi_fifo_write_guarded (data : Z) (s : state D) :
  initialized s = true ->
  let st := peek32 SPI_STATUS s in
  let s1 := access_done s (after_load32 SPI_STATUS s) (Load32 SPI_STATUS st) in
  (Z.testbit st 2 = true ->
   spi_fifo_write data s = Returns (SPI_ERROR_FIFO_FULL, s1)) /\
  (Z.testbit st 2 = false ->
   spi_fifo_write data s =
     Returns (SPI_OK,
              access_done s1 (dev_store8 SPI_TX_FIFO (wrap8 data) (hw s1))
                          (Store8 SPI_TX_FIFO (wrap8 data)))).
Proof.
  intros Hi. cbv zeta.
  split; intros Hbit; unfold spi_fifo_write, spi_is_tx_fifo_full;
    rewrite bind_get_initialized, Hi; cbn [negb];
    rewrite !bind_unfold; unfold SPI_REG_get at 1; unfold ret at 1;
    unfold STAT_TX_FULL; rewrite flag_is_bit, Hbit by lia; reflexivity.
Qed.

(** X20: [spi_fifo_read] is guarded by the RxEmpty flag.  On an
    initialized controller it loads Status once; if bit 5 of the value is
    set it returns [SPI_ERROR_FIFO_EMPTY], has not loaded RxFifo and has
    stored nothing through the destination; otherwise, given a
    destination, it returns [SPI_OK] with the byte one 8-bit load of RxFifo
    gave, a value in 0..255. *)
Theorem spi_fifo_read_guarded (data : bool) (s : state D) :
  initialized s = true ->
  let st := peek32 SPI_STATUS s in
  let s1 := access_done s (after_load32 SPI_STATUS s) (Load32 SPI_STATUS st) in
  (Z.testbit st 5 = true ->
   spi_fifo_read data s = Returns ((SPI_ERROR_FIFO_EMPTY, None), s1)) /\
  (Z.testbit st 5 = false ->
   spi_fifo_read true s =
     Returns ((SPI_OK, Some (peek8 SPI_RX_FIFO s1)),
              access_done s1 (after_load8 SPI_RX_FIFO s1)
                          (Load8 SPI_RX_FIFO (peek8 SPI_RX_FIFO s1))) /\
   0 <= peek8 SPI_RX_FIFO s1 < 256).
Proof.
  intros Hi. cbv zeta.
  split; intros Hbit; [|split];
    try (unfold spi_fifo_read, spi_is_rx_fifo_empty;
         rewrite bind_get_initialized, Hi; cbn [negb];
         rewrite !bind_unfold; unfold SPI_REG_get at 1; unfold ret at 1;
         unfold STAT_RX_EMPTY; rewrite flag_is_bit, Hbit by lia; reflexivity).
  unfold peek8, wrap8. apply Z.mod_pos_bound. reflexivity.
Qed.

Lemma keeps_spi_fifo_read : keeps drain_access (spi_fifo_read true).
Proof.
  unfold spi_fifo_read.
  apply keeps_bind; [apply keeps_get_initialized|]. intros init.
  destruct (negb init); [apply keeps_ret|].
  apply keeps_bind; [now apply keeps_status_flag|]. intros empty.
  destruct empty; [apply keeps_ret|].
  apply keeps_bind; [now apply keeps_REG8_get|]. intros v. apply keeps_ret.
Qed.

Lemma keeps_drain_rx_fifo (fuel : nat) : keeps drain_access (drain_rx_fifo fuel).
Proof.
  induction fuel as [|fuel IH]; [intros s a s'; discriminate|].
  cbn [drain_rx_fifo]. apply keeps_bind; [now apply keeps_status_flag|].
  intros empty. destruct (negb empty); [|apply keeps_ret].
  apply keeps_bind; [apply keeps_spi_fifo_read | intros _; exact IH].
Qed.

Lemma spi_fifo_read_in_bounds (s : state D) : spi_fifo_read true s <> OutOfBounds.
Proof.
  unfold spi_fifo_read. rewrite bind_get_initialized.
  destruct (negb (initialized s)); [discriminate|].
  unfold spi_is_rx_fifo_empty. run.
  destruct (Z.land (peek32 SPI_STATUS s) STAT_RX_EMPTY =? 0); discriminate.
Qed.

Lemma drain_rx_fifo_in_bounds (fuel : nat) (s : state D) :
  drain_rx_fifo fuel s <> OutOfBounds.
Proof.
  revert s. induction fuel as [|fuel IH]; intros s; [discriminate|].
  cbn [drain_rx_fifo]. rewrite bind_unfold.
  destruct (spi_is_rx_fifo_empty s) as [[empty s1]| |] eqn:He;
    [|discriminate He | discriminate He].
  destruct (negb empty); [|discriminate].
  rewrite bind_unfold. pose proof (spi_fifo_read_in_bounds s1) as Hf.
  destruct (spi_fifo_read true s1) as [[r s2]| |];
    [apply IH | discriminate | congruence].
Qed.

(** X21: [spi_deinit] shuts the driver down and can be repeated.  Before
    initialization it returns [SPI_OK] and touches nothing.  It never
    reports an error and never stores through a bad pointer: whenever it
    returns, the result is [SPI_OK], [initialized] is false,
    [current_mode] and [current_cs] are kept, and calling it again returns
    [SPI_OK] with no further access.  When it started from an initialized
    controller, its first access was the store of 0 to Control and all
    later ones are loads of Status and RxFifo. *)
Theorem spi_deinit_shuts_down (fuel : nat) (s : state D) :
  (initialized s = false -> spi_deinit fuel s = Returns (SPI_OK, s)) /\
  spi_deinit fuel s <> OutOfBounds /\
  (forall e s',
      spi_deinit fuel s = Returns (e, s') ->
      e = SPI_OK /\ initialized s' = false /\
      current_mode s' = current_mode s /\ current_cs s' = current_cs s /\
      (forall fuel', spi_deinit fuel' s' = Returns (SPI_OK, s')) /\
      (initialized s = true ->
       exists l, bus s' = l ++ Store32 SPI_CONTROL 0 :: bus s /\
                 Forall drain_access l)).
Proof.
  unfold spi_deinit. rewrite bind_get_initialized.
  destruct (initialized s) eqn:Hi; cbn [negb].
  - split; [discriminate|].
    cbv beta iota delta [bind SPI_REG_set set_initialized ret].
    set (s0 := access_done s (dev_store32 SPI_CONTROL (wrap32 0) (hw s))
                           (Store32 SPI_CONTROL (wrap32 0))).
    pose proof (drain_rx_fifo_in_bounds fuel s0) as Hib.
    destruct (drain_rx_fifo fuel s0) as [[[] s1]| |] eqn:Hd.
    + split; [discriminate|].
      intros e s' [= <- <-].
      destruct (keeps_drain_rx_fifo fuel s0 tt s1 Hd)
        as ((l & Hbus & Hl) & Hm & Hc & Hi1).
      cbn [current_mode current_cs initialized bus].
      split; [reflexivity|]. split; [reflexivity|].
      split; [exact Hm|]. split; [exact Hc|]. split.
      * intros fuel'. reflexivity.
      * intros _. exists l. split; [exact Hbus | exact Hl].
    + split; [discriminate | intros e s'; discriminate].
    + congruence.
  - split; [reflexivity|]. split; [discriminate|].
    intros e s' [= <- <-].
    split; [reflexivity|]. split; [exact Hi|].
    split; [reflexivity|]. split; [reflexivity|]. split.
    + intros fuel'. now rewrite bind_get_initialized, Hi.
    + discriminate.
Qed.

(** X22: with an empty receive FIFO [spi_deinit] returns at once.  On an
    initialized controller, if the RxEmpty bit (bit 5) reads set right
    after Control has been cleared, then with any non-zero poll budget
    [spi_deinit] returns [SPI_OK] after exactly two accesses -- the store
    of 0 to Control and one load of Status -- and RxFifo is not read. *)
Theorem spi_deinit_empty_fifo (fuel : nat) (s : state D) :
  initialized s = true ->
  let s0 := access_done s (dev_store32 SPI_CONTROL 0 (hw s))
                        (Store32 SPI_CONTROL 0) in
  Z.testbit (peek32 SPI_STATUS s0) 5 = true ->
  spi_deinit (S fuel) s =
    Returns (SPI_OK,
             mkState (current_mode s) (current_cs s) false
                     (after_load32 SPI_STATUS s0)
                     (Load32 SPI_STATUS (peek32 SPI_STATUS s0)
                        :: Store32 SPI_CONTROL 0 :: bus s)).
Proof.
  intros Hi s0 Hbit. unfold spi_deinit.
  rewrite bind_get_initialized, Hi. cbn [negb].
  rewrite (bind_returns _ _ s s0 tt) by reflexivity.
  cbn [drain_rx_fifo]. unfold spi_is_rx_fifo_empty.
  rewrite !bind_unfold. unfold SPI_REG_get at 1. unfold ret at 1.
  unfold STAT_RX_EMPTY. rewrite flag_is_bit, Hbit by lia.
  reflexivity.
Qed.

End FifoAndShutdown.

Section FlashId.
Context {D : Type} `{Device D}.

Lemma spi_read_bytes_kept
      (fuel : nat) (buffer b' : list Z) (length : nat)
      (s s' : state D) (e : spi_error_t) :
  spi_read_bytes fuel (Some buffer) length s = Returns ((e, Some b'), s') ->
  List.length b' = List.length buffer /\
  current_mode s' = current_mode s /\ current_cs s' = current_cs s /\
  initialized s' = initialized s.
Proof.
  unfold spi_read_bytes. rewrite bind_get_initialized.
  destruct (negb (initialized s)); [intros [= <- <- <-]; repeat split|].
  rewrite bind_unfold.
  destruct (read_bytes_loop fuel buffer 0 length s) as [[[e0 b0] s0]| |] eqn:Hl;
    try discriminate.
  intros [= <- <- <-].
  destruct (read_bytes_loop_frame _ _ _ _ _ _ _ _ Hl) as (Hlen & _).
  destruct (keeps_read_bytes_loop fuel length 0 buffer s _ s0 Hl) as (_ & Hrest).
  split; [exact Hlen | exact Hrest].
Qed.

(** X23: what [spi_flash_read_id] reports.  On an initialized controller,
    once the select of CS0 and the command transfer have run, if the
    three-byte bulk read returns -- with [SPI_OK] or with an error -- and
    leaves [b] in the response array, then the call returns [SPI_OK] and
    stores through each non-NULL out-pointer entry 0 (manufacturer) and
    entry 1 (device) of [b].  Its last two accesses are the
    read-modify-write of Control that clears the CS0 bit, and on return
    [current_cs] is CS0 whatever line was recorded before, while
    [current_mode] and [initialized] are unchanged. *)
Theorem spi_flash_read_id_reports_response
        (fuel : nat) (response b : list Z) (manufacturer_id device_id : bool)
        (e : spi_error_t) (r1 : spi_error_t * option Z)
        (s s1 s2 s3 : state D) :
  initialized s = true ->
  length response = 3%nat ->
  spi_select_device SPI_CS_0 s = Returns (SPI_OK, s1) ->
  spi_transfer fuel 0x9F false s1 = Returns (r1, s2) ->
  spi_read_bytes fuel (Some response) 3 s2 = Returns ((e, Some b), s3) ->
  exists s' c',
    spi_flash_read_id fuel response manufacturer_id device_id s =
      Returns ((SPI_OK,
                if manufacturer_id then b !! 0%nat else None,
                if device_id then b !! 1%nat else None), s') /\
    rmw_control s3 s' c' /\ Z.testbit c' 3 = false /\
    current_cs s' = SPI_CS_0 /\ current_mode s' = current_mode s /\
    initialized s' = true.
Proof.
  intros Hi Hlen Hsel Hcmd Hrd.
  assert (Hs1 : initialized s1 = true /\ current_cs s1 = SPI_CS_0 /\
                current_mode s1 = current_mode s).
  { revert Hsel. unfold spi_select_device. rewrite bind_get_initialized, Hi.
    cbn [negb SPI_CS_0]. run. intros [= <-]. repeat split. exact Hi. }
  destruct Hs1 as (Hi1 & Hc1 & Hm1).
  destruct (keeps_spi_transfer (fun _ => True) fuel 0x9F false I s1 r1 s2 Hcmd)
    as (_ & Hm2 & Hc2 & Hi2).
  destruct (spi_read_bytes_kept _ _ _ _ _ _ _ Hrd) as (Hlb & Hm3 & Hc3 & Hi3).
  assert (Hi3' : initialized s3 = true) by congruence.
  pose (s4 := mkState (current_mode s3) (current_cs s3) (initialized s3)
                 (dev_store32 SPI_CONTROL
                    (wrap32 (clear_bits (peek32 SPI_CONTROL s3) CTRL_CS0))
                    (after_load32 SPI_CONTROL s3))
                 (Store32 SPI_CONTROL
                    (wrap32 (clear_bits (peek32 SPI_CONTROL s3) CTRL_CS0))
                    :: Load32 SPI_CONTROL (peek32 SPI_CONTROL s3) :: bus s3)).
  destruct (flash_ids_tail b manufacturer_id device_id s4)
    as (m & d & Hids & -> & ->); [congruence|].
  exists s4. eexists. split; [|split; [|split; [|split; [|split]]]].
  - unfold spi_flash_read_id. rewrite bind_get_initialized, Hi.
    cbn [negb]. cbv zeta.
    rewrite (bind_returns _ _ _ _ _ Hsel), (bind_returns _ _ _ _ _ Hcmd).
    rewrite (bind_returns _ _ _ _ _ Hrd). cbn [snd].
    rewrite (bind_returns _ _ s3 s4 SPI_OK).
    + exact Hids.
    + unfold spi_deselect_device. rewrite bind_get_initialized, Hi3'.
      cbn [negb SPI_CS_0]. run. reflexivity.
  - apply rmw_control_intro.
  - unfold peek32. now rewrite (single_bit_update _ 3 3 false) by lia.
  - unfold s4. cbn [current_cs]. congruence.
  - unfold s4. cbn [current_mode]. congruence.
  - unfold s4. cbn [initialized]. exact Hi3'.
Qed.

End FlashId.

(** *** The start-up sequence on the simulated controller *)

Lemma sim_store_control_no_start (v : Z) (d : sim) :
  Z.testbit v 0 = false ->
  sim_store32 SPI_CONTROL v d =
    mkSim (clear_bits v CTRL_START) (sim_status d) (sim_tx d) (sim_rx d)
          (sim_clk_div d) (sim_busy d) (sim_latency d) (sim_miso d).
Proof.
  intros Hv. unfold sim_store32.
  change (SPI_CONTROL =? SPI_CONTROL) with true. cbv iota zeta.
  now rewrite Hv.
Qed.

Lemma spi_init_control_no_start
      (mode : spi_mode_t) (cs : spi_cs_t) :
  Z.testbit
    (Z.lor (Z.shiftl (if (0 <=? mode) && (mode <=? 3) then mode else SPI_MODE_0) 1)
           (if cs =? SPI_CS_0 then CTRL_CS0
            else if cs =? SPI_CS_1 then CTRL_CS1 else 0)) 0 = false.
Proof.
  rewrite Z.lor_spec, Z.shiftl_spec_low by lia.
  now destruct (cs =? SPI_CS_0), (cs =? SPI_CS_1).
Qed.

Lemma sim_init_then_loopback_ready
      (mode : spi_mode_t) (clk_div : Z) (s : state sim) :
  sim_busy (hw s) = O ->
  exists s2,
    bind (spi_init mode clk_div) (fun _ => spi_enable_loopback true) s =
      Returns (SPI_OK, s2) /\
    loopback_ready s2 /\ sim_latency (hw s2) = sim_latency (hw s).
Proof.
  intros Hb.
  destruct (spi_init_run mode clk_div s) as (control & m' & Hrun & Hm' & Hc).
  assert (Hbit0 : Z.testbit control 0 = false)
    by (subst control m'; apply spi_init_control_no_start).
  rewrite (bind_returns _ _ _ _ _ Hrun).
  set (d1 := dev_store32 SPI_STATUS 0
               (dev_store32 SPI_CLK_DIV (wrap32 clk_div)
                  (dev_store32 SPI_CONTROL control (hw s)))).
  assert (Hd1 : d1 = mkSim (clear_bits control CTRL_START) 0 (sim_tx (hw s))
                       (sim_rx (hw s)) (wrap32 clk_div) O
                       (sim_latency (hw s)) (sim_miso (hw s))).
  { unfold d1. cbn [dev_store32 sim_device].
    rewrite (sim_store_control_no_start control (hw s) Hbit0), Hb.
    reflexivity. }
  set (c' := wrap32 (Z.lor (wrap32 (clear_bits control CTRL_START)) CTRL_LOOPBACK)).
  assert (Hc0 : Z.testbit c' 0 = false).
  { unfold c'. bits. rewrite Hbit0.
    change (Z.testbit CTRL_LOOPBACK 0) with false.
    now rewrite !andb_false_l, !andb_false_r. }
  assert (Hc7 : Z.testbit (clear_bits c' CTRL_START) 7 = true).
  { unfold c'. bits.
    change (Z.testbit CTRL_LOOPBACK 7) with true.
    change (Z.testbit CTRL_START 7) with false.
    change (7 <? 32) with true. cbn [negb andb].
    now rewrite orb_true_r. }
  eexists. split; [|split].
  - unfold spi_enable_loopback. rewrite bind_get_initialized.
    cbn [initialized negb]. run. reflexivity.
  - unfold loopback_ready, access_done, after_load32, peek32.
    cbn [initialized hw]. fold d1. rewrite Hd1.
    cbn [dev_load32 dev_store32 sim_device sim_load32 fst snd].
    change (SPI_CONTROL =? SPI_CONTROL) with true. cbv iota.
    cbn [sim_control fst snd]. fold c'.
    rewrite (sim_store_control_no_start c' _ Hc0).
    cbn [sim_busy sim_status sim_control].
    repeat split; try reflexivity. exact Hc7.
  - unfold access_done, after_load32, peek32.
    cbn [hw]. fold d1. rewrite Hd1.
    cbn [dev_load32 dev_store32 sim_device sim_load32 fst snd].
    change (SPI_CONTROL =? SPI_CONTROL) with true. cbv iota.
    cbn [sim_control fst snd]. fold c'.
    rewrite (sim_store_control_no_start c' _ Hc0).
    reflexivity.
Qed.

(** X24: the start-up sequence of the test program, on the simulated
    controller.  From any driver state, initialized or not and with any
    flags latched in Status, in which no shift is in flight: [spi_init]
    with any mode and divider, then [spi_enable_loopback true], then
    [spi_transfer_bytes] of any sequence of bytes with a receive buffer of
    the same length returns [SPI_OK] with the receive buffer equal to the
    transmitted sequence, once the poll budget exceeds the shift
    latency. *)
Theorem sim_init_loopback_round_trip
        (fuel : nat) (mode : spi_mode_t) (clk_div : Z) (tx rx : list Z)
        (s : state sim) :
  sim_busy (hw s) = O ->
  length rx = length tx ->
  Forall (fun b => 0 <= b < 256) tx ->
  (sim_latency (hw s) < fuel)%nat ->
  exists s',
    bind (spi_init mode clk_div) (fun _ =>
    bind (spi_enable_loopback true) (fun _ =>
    spi_transfer_bytes fuel (Some tx) (Some rx) (length tx))) s =
      Returns ((SPI_OK, Some tx), s').
Proof.
  intros Hb Hlen Hbytes Hfuel.
  destruct (sim_init_then_loopback_ready mode clk_div s Hb)
    as (s2 & Hrun & Hready & Hlat).
  destruct (sim_loopback_loop fuel tx Hbytes (length tx) 0 rx s2)
    as (s' & Hloop & _); try assumption; [now rewrite Hlat | lia |].
  exists s'.
  rewrite bind_unfold in Hrun. rewrite bind_unfold.
  destruct (spi_init mode clk_div s) as [[[] s1]| |]; try discriminate.
  rewrite (bind_returns _ _ _ _ _ Hrun).
  unfold spi_transfer_bytes. destruct Hready as (Hi & _).
  rewrite bind_get_initialized, Hi. cbn [negb].
  rewrite Hloop. do 3 f_equal.
  rewrite take_0, drop_0, app_nil_l, take_ge, drop_ge by lia.
  now rewrite app_nil_r.
Qed.

(** *** Worked instances of the further properties *)

Lemma spi_enable_loopback_bit_witness :
  exists s' c',
    spi_enable_loopback true sim_on = Returns (SPI_OK, s') /\
    rmw_control sim_on s' c' /\
    Z.testbit c' 7 = true /\
    (forall i, 0 <= i -> i <> 7 ->
               Z.testbit c' i = Z.testbit (peek32 SPI_CONTROL sim_on) i) /\
    current_mode s' = current_mode sim_on /\ current_cs s' = current_cs sim_on /\
    initialized s' = true.
Proof. apply (spi_enable_loopback_bit true sim_on). reflexivity. Defined.

Lemma spi_set_cs_polarity_bit_witness :
  exists s' c',
    spi_set_cs_polarity true sim_looped = Returns (SPI_OK, s') /\
    rmw_control sim_looped s' c' /\
    Z.testbit c' 8 = true /\
    (forall i, 0 <= i -> i <> 8 ->
               Z.testbit c' i = Z.testbit (peek32 SPI_CONTROL sim_looped) i) /\
    current_mode s' = current_mode sim_looped /\
    current_cs s' = current_cs sim_looped /\
    initialized s' = true.
Proof. apply (spi_set_cs_polarity_bit true sim_looped). reflexivity. Defined.

Lemma spi_enable_interrupt_bit_witness :
  spi_enable_interrupt true sim_off = Returns (SPI_ERROR_INVALID_MODE, sim_off) /\
  exists s' c',
    spi_enable_interrupt false sim_looped = Returns (SPI_OK, s') /\
    rmw_control sim_looped s' c' /\
    Z.testbit c' 5 = false /\
    (forall i, 0 <= i -> i <> 5 ->
               Z.testbit c' i = Z.testbit (peek32 SPI_CONTROL sim_looped) i) /\
    current_mode s' = current_mode sim_looped /\
    current_cs s' = current_cs sim_looped /\
    initialized s' = true.
Proof.
  split.
  - apply (proj1 (spi_enable_interrupt_bit true sim_off)). reflexivity.
  - apply (proj2 (spi_enable_interrupt_bit false sim_looped)). reflexivity.
Defined.

Lemma out_of_range_enum_rejected_witness :
  spi_set_mode 4 sim_on =
    Returns (SPI_ERROR_INVALID_MODE,
             access_done sim_on (after_load32 SPI_CONTROL sim_on)
                         (Load32 SPI_CONTROL (peek32 SPI_CONTROL sim_on))) /\
  spi_select_device 4 sim_on =
    Returns (SPI_ERROR_INVALID_MODE,
             access_done sim_on (after_load32 SPI_CONTROL sim_on)
                         (Load32 SPI_CONTROL (peek32 SPI_CONTROL sim_on))).
Proof.
  assert (Hr : 4 < 0 \/ 3 < 4) by (right; lia).
  pose proof (out_of_range_enum_rejected 4 sim_on eq_refl Hr) as Hall.
  cbv zeta in Hall. split; [apply (proj1 Hall) | apply (proj1 (proj2 Hall))].
Defined.

Lemma spi_select_device_exclusive_witness :
  exists s' c',
    spi_select_device SPI_CS_3 sim_on = Returns (SPI_OK, s') /\
    rmw_control sim_on s' c' /\ current_cs s' = SPI_CS_3 /\
    Z.testbit c' 3 = false /\ Z.testbit c' 4 = true /\
    (forall i, 0 <= i -> i <> 3 -> i <> 4 ->
               Z.testbit c' i = Z.testbit (peek32 SPI_CONTROL sim_on) i).
Proof.
  apply (spi_select_device_exclusive SPI_CS_3 sim_on); [reflexivity|].
  vm_compute. split; discriminate.
Defined.

Lemma spi_deselect_device_bits_witness :
  exists s' c',
    spi_deselect_device 7 sim_on = Returns (SPI_OK, s') /\
    rmw_control sim_on s' c' /\
    current_cs s' = current_cs sim_on /\ current_mode s' = current_mode sim_on.
Proof.
  destruct (spi_deselect_device_bits 7 sim_on eq_refl)
    as (s' & c' & Hr & Hrmw & Hcs & Hm & _).
  exists s', c'. split; [exact Hr|]. split; [exact Hrmw|].
  split; [exact Hcs | exact Hm].
Defined.

Lemma deselect_then_init_reasserts_witness :
  exists s1 s2 s3 c2 c3,
    spi_select_device SPI_CS_1 sim_on = Returns (SPI_OK, s1) /\
    spi_deselect_device SPI_CS_1 s1 = Returns (SPI_OK, s2) /\
    rmw_control s1 s2 c2 /\
    Z.testbit c2 4 = false /\
    spi_init SPI_MODE_0 4 s2 = Returns (tt, s3) /\
    bus s3 = Store32 SPI_STATUS 0
               :: Store32 SPI_CLK_DIV (wrap32 4)
               :: Store32 SPI_CONTROL c3 :: bus s2 /\
    Z.testbit c3 4 = true.
Proof.
  apply (deselect_then_init_reasserts SPI_CS_1 SPI_MODE_0 4 sim_on eq_refl).
  right. reflexivity.
Defined.

Lemma spi_transfer_footprint_witness :
  exists r s',
    spi_transfer 2 0x55 true sim_on = Returns (r, s') /\
    only (transfer_access (eq (wrap8 0x55))) sim_on s' /\
    current_mode s' = current_mode sim_on /\ current_cs s' = current_cs sim_on /\
    initialized s' = initialized sim_on.
Proof.
  eexists; eexists. split.
  - vm_compute. reflexivity.
  - eapply (spi_transfer_footprint 2 0x55 true sim_on).
    vm_compute. reflexivity.
Defined.

Lemma spi_write_bytes_footprint_witness :
  exists e s',
    spi_write_bytes 2 (Some [0x01; 0x02]) 2 sim_on = Returns (e, s') /\
    (e = SPI_OK \/ e = SPI_ERROR_BUSY \/ e = SPI_ERROR_INVALID_MODE) /\
    only (transfer_access
            (fun v => exists j b, (j < 2)%nat /\
                                  [0x01; 0x02] !! j = Some b /\ v = wrap8 b))
         sim_on s'.
Proof.
  eexists; eexists. split.
  - vm_compute. reflexivity.
  - assert (Hrun : spi_write_bytes 2 (Some [0x01; 0x02]) 2 sim_on = _)
      by (vm_compute; reflexivity).
    destruct (spi_write_bytes_footprint 2 [0x01; 0x02] 2 sim_on _ _ Hrun)
      as (He & Ho & _).
    split; [exact He | exact Ho].
Defined.

Lemma spi_read_bytes_frame_witness :
  exists e out s',
    spi_read_bytes 2 (Some [7; 8; 9]) 2 sim_looped = Returns ((e, out), s') /\
    (exists b',
        out = Some b' /\ length b' = 3%nat /\
        forall j, (2 <= j)%nat -> b' !! j = [7; 8; 9] !! j) /\
    only (transfer_access (eq 0xFF)) sim_looped s'.
Proof.
  eexists; eexists; eexists. split.
  - vm_compute. reflexivity.
  - assert (Hrun : spi_read_bytes 2 (Some [7; 8; 9]) 2 sim_looped = _)
      by (vm_compute; reflexivity).
    destruct (spi_read_bytes_frame 2 [7; 8; 9] 2 sim_looped _ _ _ Hrun)
      as (Hb & Ho & _).
    split; [exact Hb | exact Ho].
Defined.

Lemma spi_transfer_fire_and_forget_witness :
  exists c c',
    (forall fuel,
        spi_transfer fuel 0x9F false sim_on =
          Returns ((SPI_OK, None), started sim_on 0x9F)) /\
    bus (started sim_on 0x9F) =
      Store32 SPI_CONTROL c' :: Load32 SPI_CONTROL c
        :: Store8 SPI_TX_DATA (wrap8 0x9F)
        :: Load32 SPI_STATUS (peek32 SPI_STATUS sim_on) :: bus sim_on /\
    forall i, 0 <= i ->
              Z.testbit c' i = if i =? 0 then true else Z.testbit c i.
Proof.
  apply (spi_transfer_fire_and_forget 0x9F sim_on); reflexivity.
Defined.

Lemma timeout_means_error_flag_witness :
  exists s',
    spi_transfer 2 0x55 true sim_faulted =
      Returns ((SPI_ERROR_TIMEOUT, None), s') /\
    exists v, bus s' = Load32 SPI_STATUS v :: tl (bus s') /\
              Z.testbit v 6 = true.
Proof.
  eexists. split.
  - vm_compute. reflexivity.
  - assert (Hrun : spi_transfer 2 0x55 true sim_faulted = _)
      by (vm_compute; reflexivity).
    exact (proj2 (proj2 (proj1 (timeout_means_error_flag
                                  2 0x55 0 true sim_faulted _ None) Hrun))).
Defined.

Lemma spi_write_bytes_back_to_back_witness :
  spi_write_bytes 2 (Some [0x01; 0x02; 0x03]) 3 sim_on =
    Returns (SPI_ERROR_BUSY,
             access_done (started sim_on 0x01)
               (after_load32 SPI_STATUS (started sim_on 0x01))
               (Load32 SPI_STATUS (peek32 SPI_STATUS (started sim_on 0x01)))).
Proof.
  apply (spi_write_bytes_back_to_back 2 [0x01; 0x02; 0x03] 0x01 0x02 3 sim_on).
  - reflexivity.
  - reflexivity.
  - vm_compute. discriminate.
  - reflexivity.
  - reflexivity.
  - lia.
Defined.

Lemma bulk_nothing_to_do_witness :
  spi_write_bytes 2 None 5 sim_on = Returns (SPI_OK, sim_on) /\
  spi_read_bytes 2 (Some [7; 8]) 0 sim_on = Returns ((SPI_OK, Some [7; 8]), sim_on).
Proof.
  pose proof (bulk_nothing_to_do 2 sim_on eq_refl) as Hall.
  split.
  - apply (proj1 Hall).
  - apply (proj1 (proj2 (proj2 (proj2 (proj2 Hall))))).
Defined.

Lemma spi_fifo_write_guarded_witness :
  spi_fifo_write 0x55 sim_tx_full =
    Returns (SPI_ERROR_FIFO_FULL,
             access_done sim_tx_full (after_load32 SPI_STATUS sim_tx_full)
                         (Load32 SPI_STATUS (peek32 SPI_STATUS sim_tx_full))).
Proof.
  apply (proj1 (spi_fifo_write_guarded 0x55 sim_tx_full eq_refl)).
  vm_compute. reflexivity.
Defined.

Lemma spi_fifo_read_guarded_witness :
  spi_fifo_read true sim_rx_empty =
    Returns ((SPI_ERROR_FIFO_EMPTY, None),
             access_done sim_rx_empty (after_load32 SPI_STATUS sim_rx_empty)
                         (Load32 SPI_STATUS (peek32 SPI_STATUS sim_rx_empty))).
Proof.
  apply (proj1 (spi_fifo_read_guarded true sim_rx_empty eq_refl)).
  vm_compute. reflexivity.
Defined.

Lemma spi_deinit_shuts_down_witness :
  spi_deinit 3 sim_off = Returns (SPI_OK, sim_off) /\
  exists s',
    spi_deinit 3 sim_rx_empty = Returns (SPI_OK, s') /\
    initialized s' = false /\
    (forall fuel', spi_deinit fuel' s' = Returns (SPI_OK, s')).
Proof.
  split.
  - apply (proj1 (spi_deinit_shuts_down 3 sim_off)). reflexivity.
  - eexists.
    assert (Hrun : spi_deinit 3 sim_rx_empty = Returns (SPI_OK, _))
      by (vm_compute; reflexivity).
    destruct (proj2 (proj2 (spi_deinit_shuts_down 3 sim_rx_empty)) _ _ Hrun)
      as (_ & Hi & _ & _ & Hagain & _).
    split; [exact Hrun|]. split; [exact Hi | exact Hagain].
Defined.

Lemma spi_deinit_empty_fifo_witness :
  spi_deinit 1 sim_rx_empty =
    Returns (SPI_OK,
             mkState SPI_MODE_0 SPI_CS_0 false
                     (after_load32 SPI_STATUS
                        (access_done sim_rx_empty
                           (dev_store32 SPI_CONTROL 0 (hw sim_rx_empty))
                           (Store32 SPI_CONTROL 0)))
                     (Load32 SPI_STATUS
                        (peek32 SPI_STATUS
                           (access_done sim_rx_empty
                              (dev_store32 SPI_CONTROL 0 (hw sim_rx_empty))
                              (Store32 SPI_CONTROL 0)))
                        :: Store32 SPI_CONTROL 0 :: bus sim_rx_empty)).
Proof.
  apply (spi_deinit_empty_fifo 0 sim_rx_empty eq_refl).
  vm_compute. reflexivity.
Defined.

Lemma spi_flash_read_id_reports_response_witness :
  exists s' c',
    spi_flash_read_id 1 [7; 8; 9] true true sim_instant =
      Returns ((SPI_OK, Some 0x5A, Some 0x5A), s') /\
    Z.testbit c' 3 = false /\
    current_cs s' = SPI_CS_0 /\ initialized s' = true.
Proof.
  assert (Hsel : spi_select_device SPI_CS_0 sim_instant = _)
    by (vm_compute; reflexivity).
  match type of Hsel with
  | _ = Returns (_, ?s1) =>
      assert (Hcmd : spi_transfer 1 0x9F false s1 = _)
        by (vm_compute; reflexivity)
  end.
  match type of Hcmd with
  | _ = Returns (_, ?s2) =>
      assert (Hrd : spi_read_bytes 1 (Some [7; 8; 9]) 3 s2 = _)
        by (vm_compute; reflexivity)
  end.
  destruct (spi_flash_read_id_reports_response
              1 [7; 8; 9] _ true true _ _ sim_instant _ _ _
              eq_refl eq_refl Hsel Hcmd Hrd)
    as (s' & c' & Hr & _ & Hbit & Hcs & _ & Hi).
  exists s', c'. split; [exact Hr|]. split; [exact Hbit|].
  split; [exact Hcs | exact Hi].
Defined.

Lemma sim_init_loopback_round_trip_witness :
  exists s',
    bind (spi_init SPI_MODE_0 4) (fun _ =>
    bind (spi_enable_loopback true) (fun _ =>
    spi_transfer_bytes 2 (Some [0x53; 0x50; 0x49]) (Some [0; 0; 0]) 3))
         sim_faulted =
      Returns ((SPI_OK, Some [0x53; 0x50; 0x49]), s').
Proof.
  apply (sim_init_loopback_round_trip
           2 SPI_MODE_0 4 [0x53; 0x50; 0x49] [0; 0; 0] sim_faulted).
  - reflexivity.
  - reflexivity.
  - repeat constructor; lia.
  - cbn. lia.
Defined.
